(** * Worker orchestration of the QuikScribe backend

    A shallow embedding of
    [app/modules/google_meeting_bot/docker_container.py] (the class
    [DockerContainerManager]) and of the meeting-bot handlers of
    [app/modules/google_meeting_bot/routes.py], with the properties of the
    orchestration design checked against them.

    Conventions of the embedding.
    - Python [int] is [Z]; [str] is [string]; [Optional[T]] is [option T].
    - [self.used_ports], a Python [set], is a [gset Z];
      [self.container_map], a Python [dict] keyed by container id, is a
      [gmap string container_info].  The loops over the dictionary run over
      [map_to_list]; nothing proved below depends on the iteration order.
    - Everything the code asks of the outside world (the socket probe, the
      random draw, the container engine, the clock, the HTTP control call)
      is an explicit argument, so the functions stay executable.
    - A function that may raise returns a [result]; the state it leaves
      behind is returned next to it. *)

From Stdlib Require Import ZArith Ascii String List Lia.
From stdpp Require Import gmap strings list fin_maps pretty.

Local Open Scope Z_scope.
Local Open Scope string_scope.

(** ** Results of calls that may raise *)

Inductive result (E A : Type) : Type :=
| Ok (a : A)
| Raise (e : E).
Arguments Ok {E A} a.
Arguments Raise {E A} e.

(** Python truthiness of an [Optional[str]]: [None] and the empty string
    are falsy. *)
Definition truthy (o : option string) : bool :=
  match o with
  | Some s => negb (String.eqb s EmptyString)
  | None => false
  end.

(** [str(n)] for an [int]. *)
Definition str (n : Z) : string := pretty n.

(** ** The container manager *)

Module DockerContainerManager.

(** What the manager can raise: its own [Exception("No available ports
    found in range ...")] and whatever the engine client raised. *)
Inductive exn : Type :=
| NoAvailablePorts (range : Z * Z)
| DockerError (msg : string).

(** The dictionary stored per container.  The keys [docker_status] and
    [running] are only added by [get_meeting_bot_status]. *)
Record container_info : Type := {
  container_id : string;
  container_name : string;
  port : Z;
  meeting_uuid : string;
  user_id : string;
  meeting_url : string;
  status : string;
  started_at : Z;
  docker_status : option string;
  running : option bool
}.

Record manager : Type := {
  used_ports : gset Z;
  container_map : gmap string container_info
}.

Definition port_range : Z * Z := (3001, 3999).

(** [__init__]: no port claimed, nothing tracked. *)
Definition init : manager :=
  {| used_ports := ∅; container_map := ∅ |}.

(** [range(self.port_range[0], self.port_range[1] + 1)] *)
Definition range_ports : list Z :=
  seqZ (fst port_range) (snd port_range + 1 - fst port_range).

(** The test of the loop body: the port is not claimed, and the socket
    probe neither raised ([None]) nor connected (result [0]). *)
Definition probe_free (connect_ex : Z -> option Z) (p : Z) : bool :=
  match connect_ex p with
  | Some r => negb (Z.eqb r 0)
  | None => false
  end.

Definition available_ports (connect_ex : Z -> option Z) (used : gset Z)
  : list Z :=
  List.filter (fun p => bool_decide (p ∉ used) && probe_free connect_ex p)
              range_ports.

(** [random.choice(seq)] is [seq[k]] for a draw [k] below [len(seq)]; it
    is only called on a non-empty list. *)
Definition random_choice (rnd : nat) (l : list Z) : Z :=
  nth (rnd mod length l)%nat l 0.

Definition get_available_port (connect_ex : Z -> option Z) (rnd : nat)
    (m : manager) : result exn Z * manager :=
  let available := available_ports connect_ex (used_ports m) in
  match available with
  | [] => (Raise (NoAvailablePorts port_range), m)
  | _ :: _ =>
      let chosen_port := random_choice rnd available in
      (Ok chosen_port,
       {| used_ports := {[chosen_port]} ∪ used_ports m;
          container_map := container_map m |})
  end.

(** [self.used_ports.discard(port)] *)
Definition discard (p : Z) (m : manager) : manager :=
  {| used_ports := used_ports m ∖ {[p]};
     container_map := container_map m |}.

(** *** The container engine, as the manager sees it *)

(** The keyword arguments of [self.client.containers.run]. *)
Record run_request : Type := {
  image : string;
  name : string;
  environment : list (string * string);
  ports : list (string * Z);
  detach : bool;
  remove : bool;
  network_mode : string
}.

(** One observation of the engine.
    - [containers_run]: the id of the started container, or what was raised;
    - [containers_get]: [container.status] of [containers.get(id)], [None]
      when the lookup raises (the container is unknown to the engine, or
      the engine cannot be reached);
    - [container_stop]: whether [container.stop(timeout=10)] returned
      ([true]) or raised ([false]). *)
Record docker : Type := {
  containers_run : run_request -> result exn string;
  containers_get : string -> option string;
  container_stop : string -> bool
}.

(** *** [start_meeting_bot] *)

(** The arguments [start_meeting_bot] passes to [containers.run]. *)
Definition launch_request (meeting_uuid meeting_url user_id : string)
    (duration dynamic_port : Z) (container_name : string) : run_request :=
  {| image := "meeting-bot:latest";
     name := container_name;
     environment :=
       [("UUID", meeting_uuid);
        ("MEETING_ID", meeting_url);
        ("USER_ID", user_id);
        ("DURATION", str duration);
        ("DYNAMIC_PORT", str dynamic_port)];
     ports := [(str dynamic_port ++ "/tcp", dynamic_port)];
     detach := true;
     remove := true;
     network_mode := "bridge" |}.

Definition start_meeting_bot (connect_ex : Z -> option Z) (rnd : nat)
    (uuid4 : string) (time_name time_started : Z) (d : docker)
    (meeting_url user_id : string) (duration : Z) (m : manager)
  : result exn container_info * manager :=
  let meeting_uuid := uuid4 in
  match get_available_port connect_ex rnd m with
  | (Raise e, m1) =>
      (* [dynamic_port] is not in [locals()]: nothing to release *)
      (Raise e, m1)
  | (Ok dynamic_port, m1) =>
      let container_name :=
        "meeting-bot-" ++ user_id ++ "-" ++ str time_name ++ "-"
                       ++ str dynamic_port in
      match containers_run d
              (launch_request meeting_uuid meeting_url user_id duration
                 dynamic_port container_name) with
      | Raise e =>
          (* the handler releases the port and re-raises *)
          (Raise e, discard dynamic_port m1)
      | Ok cid =>
          let info :=
            {| container_id := cid;
               container_name := container_name;
               port := dynamic_port;
               meeting_uuid := meeting_uuid;
               user_id := user_id;
               meeting_url := meeting_url;
               status := "starting";
               started_at := time_started;
               docker_status := None;
               running := None |} in
          (Ok info,
           {| used_ports := used_ports m1;
              container_map := <[cid := info]> (container_map m1) |})
      end
  end.

(** *** [stop_meeting_bot] *)

Definition stop_meeting_bot (d : docker) (cid : string) (m : manager)
  : bool * manager :=
  match container_map m !! cid with
  | Some info =>
      match containers_get d cid with
      | None => (false, m)                       (* raised, caught *)
      | Some _ =>
          if container_stop d cid then
            (true,
             {| used_ports := used_ports m ∖ {[port info]};
                container_map := delete cid (container_map m) |})
          else (false, m)                        (* raised, caught *)
      end
  | None => (false, m)
  end.

(** *** [get_meeting_bot_status] *)

(** The [if]/[elif] chain over [container.status]; any other engine state
    leaves the recorded status as it is. *)
Definition status_of_docker (container_status old : string) : string :=
  if String.eqb container_status "running" then "running"
  else if String.eqb container_status "exited" then "stopped"
  else if String.eqb container_status "created" then "starting"
  else old.

(** The writes to [container_info]: the keys [docker_status] and
    [running], and the status. *)
Definition observe (container_status : string) (info : container_info)
  : container_info :=
  {| container_id := container_id info;
     container_name := container_name info;
     port := port info;
     meeting_uuid := meeting_uuid info;
     user_id := user_id info;
     meeting_url := meeting_url info;
     status := status_of_docker container_status (status info);
     started_at := started_at info;
     docker_status := Some container_status;
     running := Some (String.eqb container_status "running") |}.

(** The dictionary is updated in place, so the entry of [container_map]
    changes with the returned value. *)
Definition get_meeting_bot_status (d : docker) (cid : string) (m : manager)
  : option container_info * manager :=
  match container_map m !! cid with
  | None => (None, m)
  | Some info =>
      match containers_get d cid with
      | None => (None, m)                        (* raised, caught *)
      | Some container_status =>
          let info' := observe container_status info in
          (Some info',
           {| used_ports := used_ports m;
              container_map := <[cid := info']> (container_map m) |})
      end
  end.

(** *** [get_all_meeting_bots] *)

(** One turn of the loop over [list(self.container_map.keys())]. *)
Definition get_all_step (d : docker)
    (acc : list container_info * manager) (cid : string)
  : list container_info * manager :=
  let '(active_bots, m) := acc in
  match get_meeting_bot_status d cid m with
  | (Some st, m') => ((active_bots ++ [st])%list, m')
  | (None, m') =>
      (active_bots,
       {| used_ports := used_ports m';
          container_map := delete cid (container_map m') |})
  end.

Definition keys (m : manager) : list string :=
  map fst (map_to_list (container_map m)).

Definition get_all_meeting_bots (d : docker) (m : manager)
  : list container_info * manager :=
  fold_left (get_all_step d) (keys m) ([], m).

(** *** [cleanup_dead_containers] *)

(** One turn of the first loop, over [self.container_map.items()]: it
    collects the id in [dead_containers] and releases the port, both when
    the engine reports [exited] and when the lookup raises. *)
Definition cleanup_scan (d : docker) (cm : gmap string container_info)
    (acc : list string * gset Z) (item : string * container_info)
  : list string * gset Z :=
  let '(dead_containers, used) := acc in
  let '(cid, info) := item in
  match containers_get d cid with
  | Some container_status =>
      if String.eqb container_status "exited"
      then ((dead_containers ++ [cid])%list, used ∖ {[port info]})
      else (dead_containers, used)
  | None =>
      ((dead_containers ++ [cid])%list,
       match cm !! cid with
       | Some info' => used ∖ {[port info']}
       | None => used
       end)
  end.

(** The second loop, over [dead_containers]. *)
Definition cleanup_remove (dead_containers : list string)
    (cm : gmap string container_info) : gmap string container_info :=
  fold_left (fun cm cid => delete cid cm) dead_containers cm.

Definition cleanup_dead_containers (d : docker) (m : manager)
  : nat * manager :=
  let '(dead_containers, used) :=
    fold_left (cleanup_scan d (container_map m))
              (map_to_list (container_map m)) ([], used_ports m) in
  (length dead_containers,
   {| used_ports := used;
      container_map := cleanup_remove dead_containers (container_map m) |}).

(** *** [get_port_usage_stats] *)

Record port_usage_stats : Type := {
  total_ports_available : Z;
  ports_in_use : Z;
  ports_available : Z;
  active_containers : Z;
  stats_port_range : Z * Z
}.

Definition get_port_usage_stats (m : manager) : port_usage_stats :=
  let total := snd port_range - fst port_range + 1 in
  {| total_ports_available := total;
     ports_in_use := Z.of_nat (size (used_ports m));
     ports_available := total - Z.of_nat (size (used_ports m));
     active_containers := Z.of_nat (size (container_map m));
     stats_port_range := port_range |}.

End DockerContainerManager.

(** ** The HTTP handlers of the meeting bot *)

Module Routes.

Module DCM := DockerContainerManager.

(** A row of [user_google_meeting_data]; the columns the handlers below
    never touch ([actual_duration] and the timestamps) are left out. *)
Record User_google_meeting_data : Type := {
  id : string;
  user_id : string;
  meeting_id : string;
  meeting_url : string;
  meeting_duration : option Z;
  container_id : option string;
  port : option Z;
  status : string;
  bot_logs : option string
}.

(** What a handler gives back: its return value, or the [HTTPException]
    that leaves it. *)
Inductive response (A : Type) : Type :=
| Return (a : A)
| HTTPException (status_code : Z) (detail : string).
Arguments Return {A} a.
Arguments HTTPException {A} status_code detail.

(** The state the handlers share: the module-level [docker_manager] and the
    table behind the session.  The database itself is taken to be reliable:
    [commit] does not raise. *)
Record app : Type := {
  docker_manager : option DCM.manager;
  db : list User_google_meeting_data
}.

(** [str(e)] of what the manager raises. *)
Definition message (e : DCM.exn) : string :=
  match e with
  | DCM.NoAvailablePorts (lo, hi) =>
      "No available ports found in range (" ++ str lo ++ ", " ++ str hi ++ ")"
  | DCM.DockerError msg => msg
  end.

(** [get_docker_manager]: the manager is created on first use;
    [from_env] tells whether [DockerContainerManager()] succeeds. *)
Definition get_docker_manager (from_env : bool) (g : option DCM.manager)
  : result (Z * string) DCM.manager * option DCM.manager :=
  match g with
  | Some m => (Ok m, g)
  | None =>
      if from_env then (Ok DCM.init, Some DCM.init)
      else (Raise (503, "Docker is not available in backend container"),
            None)
  end.

(** [.filter(id == meeting_id, user_id == current_user.id)] *)
Definition owned (meeting_id current_user : string)
    (meeting : User_google_meeting_data) : bool :=
  String.eqb (id meeting) meeting_id
  && String.eqb (user_id meeting) current_user.

(** [.first()] *)
Definition first (P : User_google_meeting_data -> bool)
    (rows : list User_google_meeting_data)
  : option User_google_meeting_data :=
  List.find P rows.

(** Writing to the row object [.first()] returned, then [db.commit()]. *)
Fixpoint update_first (P : User_google_meeting_data -> bool)
    (f : User_google_meeting_data -> User_google_meeting_data)
    (rows : list User_google_meeting_data)
  : list User_google_meeting_data :=
  match rows with
  | [] => []
  | r :: rest => if P r then f r :: rest else r :: update_first P f rest
  end.

Definition set_status (s : string) (meeting : User_google_meeting_data)
  : User_google_meeting_data :=
  {| id := id meeting;
     user_id := user_id meeting;
     meeting_id := meeting_id meeting;
     meeting_url := meeting_url meeting;
     meeting_duration := meeting_duration meeting;
     container_id := container_id meeting;
     port := port meeting;
     status := s;
     bot_logs := bot_logs meeting |}.

(** *** [start_meeting_bot] (POST /meeting-url) *)

Record MeetingResponse : Type := {
  r_message : string;
  r_meeting_id : string;
  r_container_id : option string;
  r_port : option Z;
  r_status : option string
}.

Definition start_meeting_bot (from_env : bool)
    (connect_ex : Z -> option Z) (rnd : nat) (uuid4 : string)
    (time_name time_started : Z) (d : DCM.docker)
    (request_meeting_url : string) (request_duration : Z)
    (current_user : string) (a : app)
  : response MeetingResponse * app :=
  match get_docker_manager from_env (docker_manager a) with
  | (Raise (code, detail), g) =>
      (HTTPException 500
         ("Failed to start meeting bot: " ++ str code ++ ": " ++ detail),
       {| docker_manager := g; db := db a |})
  | (Ok m, _) =>
      match DCM.start_meeting_bot connect_ex rnd uuid4 time_name time_started
              d request_meeting_url current_user request_duration m with
      | (Raise e, m') =>
          (HTTPException 500 ("Failed to start meeting bot: " ++ message e),
           {| docker_manager := Some m'; db := db a |})
      | (Ok container_info, m') =>
          let meeting_data :=
            {| id := DCM.meeting_uuid container_info;
               user_id := current_user;
               meeting_id := DCM.meeting_uuid container_info;
               meeting_url := request_meeting_url;
               meeting_duration := Some request_duration;
               container_id := Some (DCM.container_id container_info);
               port := Some (DCM.port container_info);
               status := "starting";
               bot_logs :=
                 Some ("Bot started on port "
                         ++ str (DCM.port container_info)) |} in
          (Return
             {| r_message := "Meeting bot started successfully";
                r_meeting_id := DCM.meeting_uuid container_info;
                r_container_id := Some (DCM.container_id container_info);
                r_port := Some (DCM.port container_info);
                r_status := Some "starting" |},
           {| docker_manager := Some m';
              db := (db a ++ [meeting_data])%list |})
      end
  end.

(** *** [get_user_meetings] (GET /my-meetings) *)

(** The loop over the caller's rows.  A row with a truthy [container_id]
    is refreshed from the manager when the manager still tracks it.  The
    first component is the exception that ended the loop, if any. *)
Fixpoint refresh_rows (from_env : bool) (d : DCM.docker)
    (current_user : string) (rows : list User_google_meeting_data)
    (g : option DCM.manager)
  : option (Z * string) * list User_google_meeting_data
    * option DCM.manager :=
  match rows with
  | [] => (None, [], g)
  | meeting :: rest =>
      let skip :=
        let '(e, rest', g') := refresh_rows from_env d current_user rest g in
        (e, meeting :: rest', g') in
      if negb (String.eqb (user_id meeting) current_user) then skip
      else if negb (truthy (container_id meeting)) then skip
      else
        match container_id meeting with
        | None => skip
        | Some cid =>
            match get_docker_manager from_env g with
            | (Raise e, g1) => (Some e, meeting :: rest, g1)
            | (Ok m, _) =>
                match DCM.get_meeting_bot_status d cid m with
                | (Some container_status, m') =>
                    let meeting' :=
                      {| id := id meeting;
                         user_id := user_id meeting;
                         meeting_id := meeting_id meeting;
                         meeting_url := meeting_url meeting;
                         meeting_duration := meeting_duration meeting;
                         container_id := container_id meeting;
                         port := Some (DCM.port container_status);
                         status := DCM.status container_status;
                         bot_logs := bot_logs meeting |} in
                    let '(e, rest', g') :=
                      refresh_rows from_env d current_user rest (Some m') in
                    (e, meeting' :: rest', g')
                | (None, m') =>
                    let '(e, rest', g') :=
                      refresh_rows from_env d current_user rest (Some m') in
                    (e, meeting :: rest', g')
                end
            end
        end
  end.

Definition get_user_meetings (from_env : bool) (d : DCM.docker)
    (current_user : string) (a : app)
  : response (list User_google_meeting_data) * app :=
  let '(e, rows, g) :=
    refresh_rows from_env d current_user (db a) (docker_manager a) in
  let a' := {| docker_manager := g; db := rows |} in
  match e with
  | Some (code, detail) =>
      (HTTPException 500
         ("Failed to get meetings: " ++ str code ++ ": " ++ detail), a')
  | None =>
      (Return
         (List.filter (fun r => String.eqb (user_id r) current_user) rows),
       a')
  end.

(** *** The control call to the worker *)

(** [await client.post(url, timeout=5.0)]: a response with its status
    code, or an exception of the transport (connection refused, timeout). *)
Inductive post_result : Type :=
| Response (status_code : Z)
| TransportError.

(** [f"{meeting.port}"] *)
Definition str_port (p : option Z) : string :=
  match p with
  | Some n => str n
  | None => "None"
  end.

Definition control_url (meeting : User_google_meeting_data)
    (meeting_id action : string) : string :=
  "http://localhost:" ++ str_port (port meeting) ++ "/" ++ meeting_id
    ++ "/meeting/" ++ action.

(** *** [pause_meeting] (POST /meeting/{meeting_id}/pause) *)

(** The [HTTPException(400)] raised for a response other than 200 is
    raised inside the inner [try], whose [except Exception] replaces it by
    the 500 below; so does every exception of the transport. *)
Definition pause_meeting (post : string -> post_result)
    (meeting_id current_user : string) (a : app)
  : response string * app :=
  match first (owned meeting_id current_user) (db a) with
  | None => (HTTPException 404 "Meeting not found", a)
  | Some meeting =>
      if truthy (container_id meeting) then
        match post (control_url meeting meeting_id "pause") with
        | Response status_code =>
            if Z.eqb status_code 200 then
              (Return "Meeting paused successfully",
               {| docker_manager := docker_manager a;
                  db := update_first (owned meeting_id current_user)
                          (set_status "paused") (db a) |})
            else (HTTPException 500 "Failed to pause meeting", a)
        | TransportError => (HTTPException 500 "Failed to pause meeting", a)
        end
      else (HTTPException 400 "Meeting bot not running", a)
  end.

(** *** [resume_meeting] (POST /meeting/{meeting_id}/resume) *)

Definition resume_meeting (post : string -> post_result)
    (meeting_id current_user : string) (a : app)
  : response string * app :=
  match first (owned meeting_id current_user) (db a) with
  | None => (HTTPException 404 "Meeting not found", a)
  | Some meeting =>
      if truthy (container_id meeting) then
        match post (control_url meeting meeting_id "resume") with
        | Response status_code =>
            if Z.eqb status_code 200 then
              (Return "Meeting resumed successfully",
               {| docker_manager := docker_manager a;
                  db := update_first (owned meeting_id current_user)
                          (set_status "running") (db a) |})
            else (HTTPException 500 "Failed to resume meeting", a)
        | TransportError => (HTTPException 500 "Failed to resume meeting", a)
        end
      else (HTTPException 400 "Meeting bot not running", a)
  end.

(** *** [stop_meeting] (POST /meeting/{meeting_id}/stop) *)

(** [meeting.status = "stopped"; meeting.container_id = None;
    meeting.port = None] *)
Definition mark_stopped (meeting : User_google_meeting_data)
  : User_google_meeting_data :=
  {| id := id meeting;
     user_id := user_id meeting;
     meeting_id := meeting_id meeting;
     meeting_url := meeting_url meeting;
     meeting_duration := meeting_duration meeting;
     container_id := None;
     port := None;
     status := "stopped";
     bot_logs := bot_logs meeting |}.

Definition stop_meeting (from_env : bool) (d : DCM.docker)
    (meeting_id current_user : string) (a : app)
  : response string * app :=
  match first (owned meeting_id current_user) (db a) with
  | None => (HTTPException 404 "Meeting not found", a)
  | Some meeting =>
      match container_id meeting with
      | None => (HTTPException 400 "Meeting bot not running", a)
      | Some cid =>
          if truthy (Some cid) then
            match get_docker_manager from_env (docker_manager a) with
            | (Raise (code, detail), g) =>
                (HTTPException code detail,
                 {| docker_manager := g; db := db a |})
            | (Ok m, _) =>
                match DCM.stop_meeting_bot d cid m with
                | (true, m') =>
                    (Return "Meeting stopped successfully",
                     {| docker_manager := Some m';
                        db := update_first (owned meeting_id current_user)
                                mark_stopped (db a) |})
                | (false, m') =>
                    (HTTPException 500 "Failed to stop meeting bot",
                     {| docker_manager := Some m'; db := db a |})
                end
            end
          else (HTTPException 400 "Meeting bot not running", a)
      end
  end.

(** *** The admin handlers *)

(** [get_meeting_bots_status] (GET /meeting-bots/status) *)
Definition get_meeting_bots_status (from_env : bool) (d : DCM.docker) (a : app)
  : response (list DCM.container_info * DCM.port_usage_stats) * app :=
  match get_docker_manager from_env (docker_manager a) with
  | (Raise (code, detail), g) =>
      (HTTPException 500
         ("Failed to get status: " ++ str code ++ ": " ++ detail),
       {| docker_manager := g; db := db a |})
  | (Ok m, _) =>
      let '(active_bots, m') := DCM.get_all_meeting_bots d m in
      (Return (active_bots, DCM.get_port_usage_stats m'),
       {| docker_manager := Some m'; db := db a |})
  end.

(** [cleanup_meeting_bots] (POST /meeting-bots/cleanup) *)
Definition cleanup_meeting_bots (from_env : bool) (d : DCM.docker) (a : app)
  : response string * app :=
  match get_docker_manager from_env (docker_manager a) with
  | (Raise (code, detail), g) =>
      (HTTPException 500
         ("Failed to cleanup: " ++ str code ++ ": " ++ detail),
       {| docker_manager := g; db := db a |})
  | (Ok m, _) =>
      let '(cleaned_count, m') := DCM.cleanup_dead_containers d m in
      (Return ("Cleaned up " ++ str (Z.of_nat cleaned_count)
                 ++ " dead containers"),
       {| docker_manager := Some m'; db := db a |})
  end.

End Routes.

(** ** The cluster variant: [_build_job_spec] *)

(** The classes of the cluster client the function instantiates, each with
    the fields it sets. *)

Module V1EnvVar.
Record t : Type := { name : string; value : string }.
End V1EnvVar.

Module V1Volume.
Record t : Type := { name : string; empty_dir : bool }.
End V1Volume.

Module V1VolumeMount.
Record t : Type := { name : string; mount_path : string }.
End V1VolumeMount.

Module V1ResourceRequirements.
Record t : Type := {
  requests : list (string * string);
  limits : list (string * string)
}.
End V1ResourceRequirements.

Module V1HTTPGetAction.
Record t : Type := { path : string; port : Z }.
End V1HTTPGetAction.

Module V1Probe.
Record t : Type := {
  http_get : V1HTTPGetAction.t;
  initial_delay_seconds : Z;
  period_seconds : Z;
  timeout_seconds : Z;
  failure_threshold : Z
}.
End V1Probe.

Module V1ContainerPort.
Record t : Type := { container_port : Z; name : string }.
End V1ContainerPort.

Module V1Container.
Record t : Type := {
  name : string;
  image : string;
  image_pull_policy : string;
  command : option (list string);
  env : list V1EnvVar.t;
  ports : list V1ContainerPort.t;
  volume_mounts : list V1VolumeMount.t;
  startup_probe : option V1Probe.t;
  readiness_probe : option V1Probe.t;
  resources : option V1ResourceRequirements.t
}.
End V1Container.

Module V1PodSpec.
Record t : Type := {
  restart_policy : string;
  containers : list V1Container.t;
  volumes : list V1Volume.t
}.
End V1PodSpec.

Module V1ObjectMeta.
Record t : Type := {
  name : string;
  labels : list (string * string);
  annotations : option (list (string * string))
}.
End V1ObjectMeta.

Module V1PodTemplateSpec.
Record t : Type := { metadata : V1ObjectMeta.t; spec : V1PodSpec.t }.
End V1PodTemplateSpec.

Module V1JobSpec.
Record t : Type := {
  template : V1PodTemplateSpec.t;
  backoff_limit : Z;
  ttl_seconds_after_finished : Z
}.
End V1JobSpec.

Module V1Job.
Record t : Type := {
  api_version : string;
  kind : string;
  metadata : V1ObjectMeta.t;
  spec : V1JobSpec.t
}.
End V1Job.

Module Jobs.

(** [s or default] on strings *)
Definition or_default (s default : string) : string :=
  if String.eqb s EmptyString then default else s.

(** [s[:n]] *)
Definition prefix (n : nat) (s : string) : string := String.substring 0 n s.

Definition bot_env (meeting_id uuid_val : string) (duration_min : Z)
    (record_type : string) : list V1EnvVar.t :=
  [ {| V1EnvVar.name := "MEETING_ID"; V1EnvVar.value := meeting_id |};
    {| V1EnvVar.name := "UUID"; V1EnvVar.value := uuid_val |};
    {| V1EnvVar.name := "RECORD_TYPE";
       V1EnvVar.value := or_default record_type "VIDEO" |};
    {| V1EnvVar.name := "DURATION"; V1EnvVar.value := str duration_min |};
    {| V1EnvVar.name := "DYNAMIC_PORT"; V1EnvVar.value := "3000" |};
    {| V1EnvVar.name := "DISPLAY"; V1EnvVar.value := ":99.0" |};
    {| V1EnvVar.name := "SELENIUM_URL";
       V1EnvVar.value := "http://localhost:4444/wd/hub" |} ].

Definition volumes : list V1Volume.t :=
  [ {| V1Volume.name := "x11-socket"; V1Volume.empty_dir := true |};
    {| V1Volume.name := "segments"; V1Volume.empty_dir := true |} ].

Definition mounts_bot : list V1VolumeMount.t :=
  [ {| V1VolumeMount.name := "x11-socket";
       V1VolumeMount.mount_path := "/tmp/.X11-unix" |};
    {| V1VolumeMount.name := "segments";
       V1VolumeMount.mount_path := "/app/segments" |} ].

Definition mounts_sel : list V1VolumeMount.t :=
  [ {| V1VolumeMount.name := "x11-socket";
       V1VolumeMount.mount_path := "/tmp/.X11-unix" |} ].

Definition bot_container (meeting_id uuid_val : string) (duration_min : Z)
    (record_type image : string) : V1Container.t :=
  {| V1Container.name := "worker";
     V1Container.image := image;
     V1Container.image_pull_policy := "IfNotPresent";
     V1Container.command :=
       Some ["sh"; "-lc"; "sleep 12; exec bun run index.ts"];
     V1Container.env := bot_env meeting_id uuid_val duration_min record_type;
     V1Container.ports := [];
     V1Container.volume_mounts := mounts_bot;
     V1Container.startup_probe := None;
     V1Container.readiness_probe := None;
     V1Container.resources :=
       Some {| V1ResourceRequirements.requests :=
                 [("cpu", "250m"); ("memory", "512Mi")];
               V1ResourceRequirements.limits :=
                 [("cpu", "750m"); ("memory", "1.5Gi")] |} |}.

Definition status_probe (initial_delay failure : Z) : V1Probe.t :=
  {| V1Probe.http_get :=
       {| V1HTTPGetAction.path := "/status"; V1HTTPGetAction.port := 4444 |};
     V1Probe.initial_delay_seconds := initial_delay;
     V1Probe.period_seconds := 5;
     V1Probe.timeout_seconds := 3;
     V1Probe.failure_threshold := failure |}.

Definition selenium_container : V1Container.t :=
  {| V1Container.name := "selenium";
     V1Container.image := "selenium/standalone-chrome:123.0";
     V1Container.image_pull_policy := "IfNotPresent";
     V1Container.command := None;
     V1Container.env :=
       [ {| V1EnvVar.name := "SE_OPTS";
            V1EnvVar.value := "--session-timeout 300" |};
         {| V1EnvVar.name := "DISPLAY"; V1EnvVar.value := ":99.0" |} ];
     V1Container.ports :=
       [ {| V1ContainerPort.container_port := 4444;
            V1ContainerPort.name := "selenium" |} ];
     V1Container.volume_mounts := mounts_sel;
     V1Container.startup_probe := Some (status_probe 3 24);
     V1Container.readiness_probe := Some (status_probe 5 6);
     V1Container.resources :=
       Some {| V1ResourceRequirements.requests :=
                 [("cpu", "500m"); ("memory", "512Mi")];
               V1ResourceRequirements.limits :=
                 [("cpu", "1500m"); ("memory", "2Gi")] |} |}.

Definition _build_job_spec (meeting_id uuid_val : string) (duration_min : Z)
    (record_type image : string) : V1Job.t :=
  let annotations :=
    [("meeting/id", meeting_id); ("meeting/uuid", uuid_val)] in
  let pod_spec :=
    {| V1PodSpec.restart_policy := "Never";
       V1PodSpec.containers :=
         [ bot_container meeting_id uuid_val duration_min record_type image;
           selenium_container ];
       V1PodSpec.volumes := volumes |} in
  let pod_meta :=
    {| V1ObjectMeta.name := "bot-" ++ prefix 8 uuid_val;
       V1ObjectMeta.labels := [("app", "quikscribe-job-bot")];
       V1ObjectMeta.annotations := Some annotations |} in
  let template :=
    {| V1PodTemplateSpec.metadata := pod_meta;
       V1PodTemplateSpec.spec := pod_spec |} in
  let job_spec :=
    {| V1JobSpec.template := template;
       V1JobSpec.backoff_limit := 0;
       V1JobSpec.ttl_seconds_after_finished := 1800 |} in
  let job_meta :=
    {| V1ObjectMeta.name := "bot-job-" ++ prefix 8 uuid_val;
       V1ObjectMeta.labels := [("app", "quikscribe-job-bot")];
       V1ObjectMeta.annotations := None |} in
  {| V1Job.api_version := "batch/v1";
     V1Job.kind := "Job";
     V1Job.metadata := job_meta;
     V1Job.spec := job_spec |}.

End Jobs.

(** ** The handlers of the cluster variant *)

Module JobRoutes.

Import Jobs.

(** [":" in img] *)
Fixpoint has_colon (s : string) : bool :=
  match s with
  | EmptyString => false
  | String c rest => Ascii.eqb c ":"%char || has_colon rest
  end.

(** [a or b] on two results of [os.getenv]. *)
Definition or_else (a b : option string) : option string :=
  if truthy a then a else b.

(** [os.getenv("JOB_NAMESPACE", "quikscribe")] *)
Definition DEFAULT_NAMESPACE (getenv : string -> option string) : string :=
  match getenv "JOB_NAMESPACE" with
  | Some ns => ns
  | None => "quikscribe"
  end.

(** What [_load_k8s_config] meets: whether the cluster client could be
    imported, whether [load_incluster_config] returns, and what
    [load_kube_config] does ([Raise e] carries [str(e)]). *)
Record k8s_setup : Type := {
  client_imported : bool;
  load_incluster_config : bool;
  load_kube_config : result string unit
}.

(** [_load_k8s_config]: the exception it raises, if any. *)
Definition _load_k8s_config (w : k8s_setup) : option (Z * string) :=
  if negb (client_imported w) then
    Some (500, "Kubernetes client not available in backend image")
  else if load_incluster_config w then None
  else
    match load_kube_config w with
    | Ok _ => None
    | Raise e => Some (500, "Failed to load Kubernetes config: " ++ e)
    end.

Definition image_not_configured : string :=
  "BOT_IMAGE not configured. Set BOT_IMAGE env to your ECR image, e.g. "
  ++ "266735817130.dkr.ecr.us-east-1.amazonaws.com/quikscribe-google-bot:latest".

(** [_bot_image_from_env] *)
Definition _bot_image_from_env (getenv : string -> option string)
  : Routes.response string :=
  let img := or_else (getenv "BOT_IMAGE") (getenv "DOCKER_IMAGE_NAME") in
  match img with
  | None => Routes.HTTPException 500 image_not_configured
  | Some s =>
      if negb (truthy img) || negb (has_colon s)
      then Routes.HTTPException 500 image_not_configured
      else Routes.Return s
  end.

Record K8sMeetingRequest : Type := {
  meetingId : string;
  duration : Z;
  uuid : option string;
  recordType : option string
}.

Record BatchRequest : Type := {
  count : Z;
  baseMeetingId : string;
  b_duration : Z;
  b_recordType : option string
}.

(** The constraint [Field(5, gt=0, le=100)] on [count], which the
    framework checks before the handler runs. *)
Definition valid_count (payload : BatchRequest) : Prop :=
  0 < count payload <= 100.

(** [int(payload.duration or 1)] *)
Definition duration_or_1 (n : Z) : Z := if Z.eqb n 0 then 1 else n.

(** [payload.recordType or "VIDEO"] *)
Definition record_type_or_video (r : option string) : string :=
  match r with
  | Some s => if truthy r then s else "VIDEO"
  | None => "VIDEO"
  end.

(** [payload.uuid or str(_uuid.uuid4())] *)
Definition uuid_or_fresh (u : option string) (uuid4 : string) : string :=
  match u with
  | Some s => if truthy u then s else uuid4
  | None => uuid4
  end.

Record job_created : Type := {
  jc_message : string;
  jc_job : string;
  jc_uuid : string
}.

(** [start_meeting_job] (POST /k8s/meeting).  [create namespace body] is
    [batch.create_namespaced_job]: the name in the response's metadata, or
    [str(e)] of what it raised. *)
Definition start_meeting_job (w : k8s_setup)
    (getenv : string -> option string) (uuid4 : string)
    (create : string -> V1Job.t -> result string string)
    (payload : K8sMeetingRequest) : Routes.response job_created :=
  match _load_k8s_config w with
  | Some (status_code, detail) => Routes.HTTPException status_code detail
  | None =>
      let namespace := DEFAULT_NAMESPACE getenv in
      match _bot_image_from_env getenv with
      | Routes.HTTPException status_code detail =>
          Routes.HTTPException status_code detail
      | Routes.Return image =>
          let uuid_val := uuid_or_fresh (uuid payload) uuid4 in
          let job :=
            _build_job_spec (meetingId payload) uuid_val
              (duration_or_1 (duration payload))
              (record_type_or_video (recordType payload)) image in
          match create namespace job with
          | Ok job_name =>
              Routes.Return
                {| jc_message := "job created";
                   jc_job := job_name;
                   jc_uuid := uuid_val |}
          | Raise e =>
              Routes.HTTPException 500 ("Failed to create job: " ++ e)
          end
      end
  end.

(** The loop of [start_batch_jobs], over the identifiers [uuid4] gives in
    its turns: a job the cluster refuses is logged and passed over. *)
Fixpoint create_jobs (create : V1Job.t -> result string string)
    (build : string -> V1Job.t) (uuids created : list string)
  : list string :=
  match uuids with
  | [] => created
  | uuid_val :: rest =>
      match create (build uuid_val) with
      | Ok job_name =>
          create_jobs create build rest (created ++ [job_name])%list
      | Raise _ => create_jobs create build rest created
      end
  end.

(** The name under which the cluster accepted a job, if it did. *)
Definition accepted (create : V1Job.t -> result string string)
    (build : string -> V1Job.t) (uuid_val : string) : option string :=
  match create (build uuid_val) with
  | Ok job_name => Some job_name
  | Raise _ => None
  end.

Record batch_created : Type := {
  bc_message : string;
  bc_count : Z;
  bc_jobs : list string
}.

(** [start_batch_jobs] (POST /k8s/meetings/batch); [uuid4 i] is the
    identifier drawn in turn [i] of the loop. *)
Definition start_batch_jobs (w : k8s_setup)
    (getenv : string -> option string) (uuid4 : nat -> string)
    (create : string -> V1Job.t -> result string string)
    (payload : BatchRequest) : Routes.response batch_created :=
  match _load_k8s_config w with
  | Some (status_code, detail) => Routes.HTTPException status_code detail
  | None =>
      let namespace := DEFAULT_NAMESPACE getenv in
      match _bot_image_from_env getenv with
      | Routes.HTTPException status_code detail =>
          Routes.HTTPException status_code detail
      | Routes.Return image =>
          let created :=
            create_jobs (create namespace)
              (fun uuid_val =>
                 _build_job_spec (baseMeetingId payload) uuid_val
                   (duration_or_1 (b_duration payload))
                   (record_type_or_video (b_recordType payload)) image)
              (map uuid4 (seq 0 (Z.to_nat (count payload)))) [] in
          Routes.Return
            {| bc_message := "batch created";
               bc_count := Z.of_nat (length created);
               bc_jobs := created |}
      end
  end.

End JobRoutes.

(** ** Runs of operations *)

Module Traces.

Import DockerContainerManager.

(** The two operations of the port allocator: a call of
    [get_available_port] with what the probe and the random draw give, and
    a [discard] of a port. *)
Inductive alloc_op : Type :=
| Allocate (connect_ex : Z -> option Z) (rnd : nat)
| Release (p : Z).

Definition alloc_step (m : manager) (o : alloc_op) : manager :=
  match o with
  | Allocate connect_ex rnd => snd (get_available_port connect_ex rnd m)
  | Release p => discard p m
  end.

Definition alloc_run (ops : list alloc_op) (m : manager) : manager :=
  fold_left alloc_step ops m.

(** The number of ports of the configured range. *)
Definition range_size : nat := length range_ports.

Definition in_range (p : Z) : Prop :=
  fst port_range <= p <= snd port_range.

(** The set of all ports of the range, to count against. *)
Definition range_set : gset Z := list_to_set range_ports.

(** What a pass of reconciliation leaves of a tracked entry: the entry
    with the engine's state written to it, or nothing when the engine does
    not know the container. *)
Definition reconciled (d : docker) (cid : string) (info : container_info)
  : option container_info :=
  (fun container_status => observe container_status info)
    <$> containers_get d cid.

(** The test [cleanup_dead_containers] makes of a container: the engine
    reports [exited], or the lookup raises. *)
Definition dead (d : docker) (cid : string) : bool :=
  match containers_get d cid with
  | Some container_status => String.eqb container_status "exited"
  | None => true
  end.

(** The engine does not know the container. *)
Definition absent (d : docker) (cid : string) : bool :=
  match containers_get d cid with
  | Some _ => false
  | None => true
  end.

(** The operations that follow a launch: a stop, a listing and a
    cleanup, each with what the engine shows at that moment. *)
Inductive manager_op : Type :=
| StopBot (d : docker) (cid : string)
| ListBots (d : docker)
| CleanupDead (d : docker).

Definition manager_step (m : manager) (o : manager_op) : manager :=
  match o with
  | StopBot d cid => snd (stop_meeting_bot d cid m)
  | ListBots d => snd (get_all_meeting_bots d m)
  | CleanupDead d => snd (cleanup_dead_containers d m)
  end.

Definition manager_run (ops : list manager_op) (m : manager) : manager :=
  fold_left manager_step ops m.

(** A port is leaked when it is claimed and no tracked entry holds it: no
    operation of the manager other than a new launch looks at it again. *)
Definition leaked (p : Z) (m : manager) : Prop :=
  p ∈ used_ports m
  /\ forall cid info, container_map m !! cid = Some info -> port info <> p.

(** The requests the handlers serve, each with what the outside world
    answers while it is served. *)
Inductive route_op : Type :=
| StartRequest (from_env : bool) (connect_ex : Z -> option Z) (rnd : nat)
    (uuid4 : string) (time_name time_started : Z) (d : docker)
    (meeting_url : string) (duration : Z) (current_user : string)
| ListRequest (from_env : bool) (d : docker) (current_user : string)
| PauseRequest (post : string -> Routes.post_result)
    (meeting_id current_user : string)
| ResumeRequest (post : string -> Routes.post_result)
    (meeting_id current_user : string)
| StopRequest (from_env : bool) (d : docker)
    (meeting_id current_user : string)
| StatusRequest (from_env : bool) (d : docker)
| CleanupRequest (from_env : bool) (d : docker).

Definition route_step (a : Routes.app) (o : route_op) : Routes.app :=
  match o with
  | StartRequest from_env connect_ex rnd uuid4 time_name time_started d
      meeting_url duration current_user =>
      snd (Routes.start_meeting_bot from_env connect_ex rnd uuid4 time_name
             time_started d meeting_url duration current_user a)
  | ListRequest from_env d current_user =>
      snd (Routes.get_user_meetings from_env d current_user a)
  | PauseRequest post meeting_id current_user =>
      snd (Routes.pause_meeting post meeting_id current_user a)
  | ResumeRequest post meeting_id current_user =>
      snd (Routes.resume_meeting post meeting_id current_user a)
  | StopRequest from_env d meeting_id current_user =>
      snd (Routes.stop_meeting from_env d meeting_id current_user a)
  | StatusRequest from_env d =>
      snd (Routes.get_meeting_bots_status from_env d a)
  | CleanupRequest from_env d =>
      snd (Routes.cleanup_meeting_bots from_env d a)
  end.

Definition route_run (ops : list route_op) (a : Routes.app) : Routes.app :=
  fold_left route_step ops a.

(** The control call went through: a response with status 200. *)
Definition succeeded (r : Routes.post_result) : bool :=
  match r with
  | Routes.Response status_code => Z.eqb status_code 200
  | Routes.TransportError => false
  end.

(** The terminal statuses. *)
Definition is_terminal (s : string) : bool :=
  String.eqb s "stopped" || String.eqb s "failed".

(** What every run of the allocator keeps: only ports of the range are
    claimed. *)
Definition allocator_inv (m : manager) : Prop :=
  forall q, q ∈ used_ports m -> in_range q.

End Traces.

(** ** Concrete observations, used to run the definitions *)

Module Examples.

Import DockerContainerManager Traces.

(** A host on which nothing listens: every probe is refused. *)
Definition quiet_host : Z -> option Z := fun _ => Some 111.

(** Two allocations and a release of port 3001. *)
Definition two_allocations : list alloc_op :=
  [Allocate quiet_host 0; Allocate quiet_host 7; Release 3001].

(** An engine that refuses every launch and knows no container. *)
Definition refusing_engine : docker :=
  {| containers_run := fun _ => Raise (DockerError "image not found");
     containers_get := fun _ => None;
     container_stop := fun _ => false |}.

(** An engine that accepts the launch as container [c1] and then
    reports it in a given state. *)
Definition engine_reporting (container_status : string) : docker :=
  {| containers_run := fun _ => Ok "c1";
     containers_get := fun _ => Some container_status;
     container_stop := fun _ => true |}.

(** An engine that has forgotten every container. *)
Definition engine_gone : docker :=
  {| containers_run := fun _ => Ok "c1";
     containers_get := fun _ => None;
     container_stop := fun _ => true |}.

(** The manager after one successful launch: container [c1] on port 3001. *)
Definition one_worker : manager :=
  snd (start_meeting_bot quiet_host 0 "uuid-1" 1700000000 1700000000
         (engine_reporting "running")
         "https://meet.google.com/abc-def-ghi" "user1" 30 init).

Definition one_worker_info : container_info :=
  {| container_id := "c1";
     container_name := "meeting-bot-user1-1700000000-3001";
     port := 3001;
     meeting_uuid := "uuid-1";
     user_id := "user1";
     meeting_url := "https://meet.google.com/abc-def-ghi";
     status := "starting";
     started_at := 1700000000;
     docker_status := None;
     running := None |}.

(** The engine forgets the container, then the worker is stopped, listed
    and cleaned up. *)
Definition after_the_loss : list manager_op :=
  [StopBot engine_gone "c1"; ListBots engine_gone; CleanupDead engine_gone;
   ListBots (engine_reporting "running")].

(** The service before its first request. *)
Definition app0 : Routes.app :=
  {| Routes.docker_manager := None; Routes.db := [] |}.

(** After [user1] has launched one worker: row [uuid-1], container [c1],
    port 3001, status [starting]. *)
Definition app_started : Routes.app :=
  snd (Routes.start_meeting_bot true quiet_host 0 "uuid-1" 1700000000
         1700000000 (engine_reporting "running")
         "https://meet.google.com/abc-def-ghi" 30 "user1" app0).

(** After [user1] has listed the meetings while the engine reported the
    container as [exited]: the row now has status [stopped] and still
    carries its container id. *)
Definition app_after_listing : Routes.app :=
  snd (Routes.get_user_meetings true (engine_reporting "exited") "user1"
         app_started).

(** The row of that worker as the launch wrote it. *)
Definition started_row : Routes.User_google_meeting_data :=
  {| Routes.id := "uuid-1";
     Routes.user_id := "user1";
     Routes.meeting_id := "uuid-1";
     Routes.meeting_url := "https://meet.google.com/abc-def-ghi";
     Routes.meeting_duration := Some 30;
     Routes.container_id := Some "c1";
     Routes.port := Some 3001;
     Routes.status := "starting";
     Routes.bot_logs := Some "Bot started on port 3001" |}.

(** After [user1] has stopped the worker. *)
Definition app_stopped : Routes.app :=
  snd (Routes.stop_meeting true (engine_reporting "running") "uuid-1" "user1"
         app_started).

(** A worker whose control endpoint answers, and one that cannot be
    reached. *)
Definition answering : string -> Routes.post_result :=
  fun _ => Routes.Response 200.

Definition unreachable : string -> Routes.post_result :=
  fun _ => Routes.TransportError.

(** What another user may try on the meeting of [user1]. *)
Definition requests_of_user2 : list route_op :=
  [StopRequest true (engine_reporting "running") "uuid-1" "user2";
   PauseRequest answering "uuid-1" "user2";
   ResumeRequest answering "uuid-1" "user2";
   ListRequest true (engine_reporting "exited") "user2";
   StatusRequest true (engine_reporting "running")].

(** A cluster that can be reached from inside, an environment that names
    the image, and a scheduler that accepts every job but those whose name
    ends in [2]. *)
Definition in_cluster : JobRoutes.k8s_setup :=
  {| JobRoutes.client_imported := true;
     JobRoutes.load_incluster_config := true;
     JobRoutes.load_kube_config := Raise "no kubeconfig" |}.

Definition image_env : string -> option string :=
  fun n => if String.eqb n "BOT_IMAGE"
           then Some "registry.example/quikscribe-google-bot:latest"
           else None.

Definition picky_scheduler : string -> V1Job.t -> result string string :=
  fun _ job =>
    if String.eqb (V1ObjectMeta.name (V1Job.metadata job)) "bot-job-2"
    then Raise "quota exceeded"
    else Ok (V1ObjectMeta.name (V1Job.metadata job)).

(** The identifiers drawn in the turns of a batch: [0], [1], [2], ... *)
Definition counting_uuid : nat -> string := fun i => pretty i.

Definition batch_of_4 : JobRoutes.BatchRequest :=
  {| JobRoutes.count := 4;
     JobRoutes.baseMeetingId := "abc-def-ghi";
     JobRoutes.b_duration := 0;
     JobRoutes.b_recordType := None |}.

(** Requests that need the manager, made while the engine cannot be
    reached. *)
Definition requests_without_docker : list route_op :=
  [StartRequest false quiet_host 0 "uuid-2" 1700000000 1700000000
     engine_gone "https://meet.google.com/jkl-mno-pqr" 45 "user2";
   StopRequest false engine_gone "uuid-1" "user1";
   ListRequest false engine_gone "user1";
   StatusRequest false engine_gone;
   CleanupRequest false engine_gone].

(** The table with the row of [user1], in a service that has lost its
    manager (a restart). *)
Definition app_restarted : Routes.app :=
  {| Routes.docker_manager := None; Routes.db := [started_row] |}.

(** Requests that follow the stop: a resume that is answered, a listing
    with the container running, a pause and a second stop. *)
Definition after_the_stop : list route_op :=
  [ResumeRequest answering "uuid-1" "user1";
   ListRequest true (engine_reporting "running") "user1";
   PauseRequest answering "uuid-1" "user1";
   StopRequest true (engine_reporting "running") "uuid-1" "user1"].

End Examples.

(** ** The claims that the code does not meet, as they are worded *)

Module Claims.

Import DockerContainerManager.

(** The status the manager has on record for a container. *)
Definition recorded_status (m : manager) (cid : string) : option string :=
  status <$> container_map m !! cid.

(** The status mapping of the reconciliation as worded: [running] gives
    running, [exited] gives failed unless the worker was stopped, and a
    container unknown to the engine gives failed. *)
Definition reconciles_as_worded (d : docker) (cid : string) (m : manager)
  : Prop :=
  let m' := snd (get_meeting_bot_status d cid m) in
  match containers_get d cid with
  | Some container_status =>
      (container_status = "running" ->
       recorded_status m' cid = Some "running")
      /\ (container_status = "exited" ->
          recorded_status m cid <> Some "stopped" ->
          recorded_status m' cid = Some "failed")
  | None => recorded_status m' cid = Some "failed"
  end.

(** Cleanup as worded: exactly the entries whose container the engine does
    not know are removed, and their number is returned. *)
Definition cleans_as_worded (d : docker) (m : manager) : Prop :=
  let r := cleanup_dead_containers d m in
  (forall cid,
     container_map (snd r) !! cid
     = if Traces.absent d cid then None else container_map m !! cid)
  /\ fst r
     = size (filter (fun kv : string * container_info =>
                       Traces.absent d (fst kv) = true) (container_map m)).

(** Stickiness as worded: a row whose status is terminal has a terminal
    status after the request too. *)
Definition sticky_as_worded (o : Traces.route_op) (a : Routes.app) : Prop :=
  forall i row,
    Routes.db a !! i = Some row ->
    Traces.is_terminal (Routes.status row) = true ->
    exists row',
      Routes.db (Traces.route_step a o) !! i = Some row'
      /\ Traces.is_terminal (Routes.status row') = true.

(** The containers of the pod template of a job. *)
Definition pod_containers (job : V1Job.t) : list V1Container.t :=
  V1PodSpec.containers
    (V1PodTemplateSpec.spec (V1JobSpec.template (V1Job.spec job))).

(** The names of the environment variables of a container, and the value
    of one of them. *)
Definition env_names (c : V1Container.t) : list string :=
  map V1EnvVar.name (V1Container.env c).

Definition env_value (n : string) (c : V1Container.t) : option string :=
  V1EnvVar.value
    <$> List.find (fun v => String.eqb (V1EnvVar.name v) n)
                  (V1Container.env c).

(** The names of the environment variables of the local launch. *)
Definition local_env_names : list string :=
  map fst (environment
             (launch_request EmptyString EmptyString EmptyString 0 0
                EmptyString)).

(** The environment of the worker of a job as worded: it has every
    variable of the local launch. *)
Definition job_env_as_worded (job : V1Job.t) : Prop :=
  forall worker rest,
    pod_containers job = worker :: rest ->
    forall n, n ∈ local_env_names -> n ∈ env_names worker.

(** A container has resource requests and limits attached. *)
Definition has_resources (c : V1Container.t) : bool :=
  match V1Container.resources c with
  | Some r =>
      negb (Nat.eqb (length (V1ResourceRequirements.requests r)) 0)
      && negb (Nat.eqb (length (V1ResourceRequirements.limits r)) 0)
  | None => false
  end.

End Claims.

(** ** Runs of the manager and views of the tables *)

Module Lifecycle.

Import DockerContainerManager.

(** Every call a user of the manager can make, each with what the outside
    world shows while it runs. *)
Inductive bot_op : Type :=
| Launch (connect_ex : Z -> option Z) (rnd : nat) (uuid4 : string)
    (time_name time_started : Z) (d : docker)
    (meeting_url user_id : string) (duration : Z)
| Stop (d : docker) (cid : string)
| Check (d : docker) (cid : string)
| ListAll (d : docker)
| Cleanup (d : docker).

Definition bot_step (m : manager) (o : bot_op) : manager :=
  match o with
  | Launch connect_ex rnd uuid4 time_name time_started d meeting_url
      user_id duration =>
      snd (start_meeting_bot connect_ex rnd uuid4 time_name time_started d
             meeting_url user_id duration m)
  | Stop d cid => snd (stop_meeting_bot d cid m)
  | Check d cid => snd (get_meeting_bot_status d cid m)
  | ListAll d => snd (get_all_meeting_bots d m)
  | Cleanup d => snd (cleanup_dead_containers d m)
  end.

Definition bot_run (ops : list bot_op) (m : manager) : manager :=
  fold_left bot_step ops m.

(** What the manager keeps: claimed ports are ports of the range, a
    tracked worker is filed under its own container id with its port
    claimed, and no two tracked workers have the same port. *)
Definition manager_inv (m : manager) : Prop :=
  (forall p, p ∈ used_ports m -> Traces.in_range p)
  /\ (forall cid info, container_map m !! cid = Some info ->
        port info ∈ used_ports m /\ container_id info = cid)
  /\ (forall c1 c2 i1 i2,
        container_map m !! c1 = Some i1 ->
        container_map m !! c2 = Some i2 ->
        port i1 = port i2 -> c1 = c2).

(** The value of a variable in the environment of a launch request. *)
Definition request_env (n : string) (r : run_request) : option string :=
  snd <$> List.find (fun kv => String.eqb (fst kv) n) (environment r).

(** The caller on whose behalf a request is served; the two admin
    requests act for nobody in particular. *)
Definition op_user (o : Traces.route_op) : option string :=
  match o with
  | Traces.StartRequest _ _ _ _ _ _ _ _ _ current_user => Some current_user
  | Traces.ListRequest _ _ current_user => Some current_user
  | Traces.PauseRequest _ _ current_user => Some current_user
  | Traces.ResumeRequest _ _ current_user => Some current_user
  | Traces.StopRequest _ _ _ current_user => Some current_user
  | Traces.StatusRequest _ _ => None
  | Traces.CleanupRequest _ _ => None
  end.


(** A request that needs the manager, served while none can be created. *)
Definition without_docker (o : Traces.route_op) : bool :=
  match o with
  | Traces.StartRequest from_env _ _ _ _ _ _ _ _ _ => negb from_env
  | Traces.ListRequest from_env _ _ => negb from_env
  | Traces.PauseRequest _ _ _ => false
  | Traces.ResumeRequest _ _ _ => false
  | Traces.StopRequest from_env _ _ _ => negb from_env
  | Traces.StatusRequest from_env _ => negb from_env
  | Traces.CleanupRequest from_env _ => negb from_env
  end.

(** The manager of the service, once there is one, keeps its invariant. *)
Definition app_inv (a : Routes.app) : Prop :=
  match Routes.docker_manager a with
  | Some m => manager_inv m
  | None => True
  end.

(** [.filter(user_id == current_user.id).all()] *)
Definition rows_of (current_user : string)
    (rows : list Routes.User_google_meeting_data)
  : list Routes.User_google_meeting_data :=
  List.filter (fun r => String.eqb (Routes.user_id r) current_user) rows.

End Lifecycle.

(** * Properties *)

(** ** The definitions on concrete inputs *)

Module Runs.

Import DockerContainerManager Traces.

Example str_port : str 3001 = "3001".
Proof. reflexivity. Qed.

Example first_port : fst (get_available_port Examples.quiet_host 0 init) = Ok 3001.
Proof. vm_compute. reflexivity. Qed.

Example last_port :
  fst (get_available_port Examples.quiet_host 998 init) = Ok 3999.
Proof. vm_compute. reflexivity. Qed.

(** A host on which every port of the range is taken by someone else. *)
Example busy_host :
  fst (get_available_port (fun _ => Some 0) 0 init)
  = Raise (NoAvailablePorts (3001, 3999)).
Proof. vm_compute. reflexivity. Qed.

Example launch_tracks :
  container_map Examples.one_worker !! "c1" = Some Examples.one_worker_info
  /\ elements (used_ports Examples.one_worker) = [3001].
Proof. split; vm_compute; reflexivity. Qed.

Example stop_releases :
  stop_meeting_bot (Examples.engine_reporting "running") "c1"
    Examples.one_worker = (true, init).
Proof. vm_compute. reflexivity. Qed.

Example stop_untracked :
  stop_meeting_bot (Examples.engine_reporting "running") "c2"
    Examples.one_worker = (false, Examples.one_worker).
Proof. vm_compute. reflexivity. Qed.

Example cleanup_of_lost :
  cleanup_dead_containers Examples.engine_gone Examples.one_worker
  = (1%nat, init).
Proof. vm_compute. reflexivity. Qed.

Example cleanup_of_running :
  cleanup_dead_containers (Examples.engine_reporting "running")
    Examples.one_worker = (0%nat, Examples.one_worker).
Proof. vm_compute. reflexivity. Qed.

Example listing_of_lost :
  get_all_meeting_bots Examples.engine_gone Examples.one_worker
  = ([], {| used_ports := {[3001]}; container_map := ∅ |}).
Proof. vm_compute. reflexivity. Qed.

Example launched_row :
  Routes.db Examples.app_started = [Examples.started_row].
Proof. vm_compute. reflexivity. Qed.

Example stopped_row :
  Routes.db Examples.app_stopped = [Routes.mark_stopped Examples.started_row]
  /\ Routes.docker_manager Examples.app_stopped = Some init.
Proof. split; vm_compute; reflexivity. Qed.

Example job_names :
  V1ObjectMeta.name
    (V1Job.metadata
       (Jobs._build_job_spec "abc-def-ghi"
          "0f8fad5b-d9cb-469f-a165-70867728950e" 1 "VIDEO" "bot:latest"))
  = "bot-job-0f8fad5b".
Proof. reflexivity. Qed.

End Runs.

Module PortAllocator.

Import DockerContainerManager Traces.

Lemma range_ports_spec p : p ∈ range_ports <-> in_range p.
Proof.
  unfold range_ports, in_range, port_range; simpl.
  rewrite elem_of_seqZ. lia.
Qed.

Lemma range_size_999 : range_size = 999%nat.
Proof. reflexivity. Qed.

Lemma available_ports_spec connect_ex used p :
  In p (available_ports connect_ex used) <->
  in_range p /\ (p ∉ used) /\ probe_free connect_ex p = true.
Proof.
  unfold available_ports. rewrite filter_In, <- list_elem_of_In.
  rewrite range_ports_spec, andb_true_iff, bool_decide_eq_true. tauto.
Qed.

Lemma random_choice_In rnd l : l <> [] -> In (random_choice rnd l) l.
Proof.
  intros Hl. unfold random_choice. apply nth_In.
  apply Nat.mod_upper_bound. destruct l; [congruence | discriminate].
Qed.

Lemma size_range_set : size range_set = range_size.
Proof. apply size_list_to_set, NoDup_seqZ. Qed.

Lemma elem_of_range_set q : q ∈ range_set <-> in_range q.
Proof. unfold range_set. rewrite elem_of_list_to_set. apply range_ports_spec. Qed.

Lemma allocator_inv_bound m :
  allocator_inv m -> (size (used_ports m) <= range_size)%nat.
Proof.
  intros H. rewrite <- size_range_set. apply subseteq_size.
  intros q Hq. apply elem_of_range_set, H, Hq.
Qed.

Lemma get_available_port_ok connect_ex rnd m p m' :
  get_available_port connect_ex rnd m = (Ok p, m') ->
  In p (available_ports connect_ex (used_ports m))
  /\ m' = {| used_ports := {[p]} ∪ used_ports m;
             container_map := container_map m |}.
Proof.
  unfold get_available_port.
  destruct (available_ports connect_ex (used_ports m)) as [|q l] eqn:E;
    [discriminate|].
  intros [= <- <-]. split; [|reflexivity].
  apply random_choice_In. discriminate.
Qed.

Lemma get_available_port_raise connect_ex rnd m e m' :
  get_available_port connect_ex rnd m = (Raise e, m') ->
  m' = m /\ e = NoAvailablePorts port_range.
Proof.
  unfold get_available_port.
  destruct (available_ports connect_ex (used_ports m)); [|discriminate].
  by intros [= <- <-].
Qed.

Lemma alloc_step_inv m o : allocator_inv m -> allocator_inv (alloc_step m o).
Proof.
  unfold allocator_inv. intros Hm. destruct o as [connect_ex rnd | p]; simpl.
  - destruct (get_available_port connect_ex rnd m) as [[q|e] m'] eqn:E; simpl.
    + apply get_available_port_ok in E as [Hin ->]; simpl.
      apply available_ports_spec in Hin as (Hr & _ & _).
      intros q' [->%elem_of_singleton | Hq']%elem_of_union; auto.
    + by apply get_available_port_raise in E as [-> _].
  - intros q [Hq _]%elem_of_difference. auto.
Qed.

Lemma alloc_run_inv ops m : allocator_inv m -> allocator_inv (alloc_run ops m).
Proof.
  unfold alloc_run. revert m.
  induction ops as [|o ops IH]; intros m Hm; simpl; [done|].
  apply IH, alloc_step_inv, Hm.
Qed.

Lemma init_inv : allocator_inv init.
Proof. intros q Hq. simpl in Hq. by apply not_elem_of_empty in Hq. Qed.

Lemma NoDup_list_filter {A} (f : A -> bool) (l : list A) :
  NoDup l -> NoDup (List.filter f l).
Proof.
  induction 1 as [|q l Hq _ IH]; cbn [List.filter].
  - constructor.
  - destruct (f q); [|exact IH].
    constructor; [|exact IH].
    rewrite list_elem_of_In, filter_In, <- list_elem_of_In. tauto.
Qed.

Lemma NoDup_available_ports connect_ex used :
  NoDup (available_ports connect_ex used).
Proof. unfold available_ports. apply NoDup_list_filter, NoDup_seqZ. Qed.

(** The draw decides: a draw below the number of candidates returns the
    candidate at that position. *)
Lemma get_available_port_draw connect_ex m i :
  (i < length (available_ports connect_ex (used_ports m)))%nat ->
  fst (get_available_port connect_ex i m)
  = Ok (nth i (available_ports connect_ex (used_ports m)) 0).
Proof.
  intros Hi. unfold get_available_port, random_choice.
  destruct (available_ports connect_ex (used_ports m)) as [|q l] eqn:E;
    [simpl in Hi; lia|].
  cbn [fst]. by rewrite Nat.mod_small.
Qed.

(** C2.  After any run of [get_available_port] and [discard] calls from a
    fresh manager, the claimed set holds only ports of the configured range,
    holds none twice and is no larger than the range; and every call of
    [get_available_port] that returns then returns a port of the range that
    was not claimed, the candidate at the position the random draw gives
    (the draw modulo the number of candidates), and leaves it claimed, with
    nothing else changed.  The choice is by the draw and not lowest-first:
    the candidates are pairwise different, a draw below their number
    returns the candidate at that position, and so every candidate is
    returned for some draw. *)
Theorem get_available_port_sound (ops : list alloc_op) :
  let m := alloc_run ops init in
  (forall q, q ∈ used_ports m -> in_range q)
  /\ NoDup (elements (used_ports m))
  /\ (size (used_ports m) <= range_size)%nat
  /\ (forall connect_ex rnd p m',
        get_available_port connect_ex rnd m = (Ok p, m') ->
        in_range p
        /\ (p ∉ used_ports m)
        /\ In p (available_ports connect_ex (used_ports m))
        /\ available_ports connect_ex (used_ports m)
           !! (rnd mod length (available_ports connect_ex (used_ports m)))%nat
           = Some p
        /\ used_ports m' = {[p]} ∪ used_ports m
        /\ container_map m' = container_map m)
  /\ (forall connect_ex,
        let candidates := available_ports connect_ex (used_ports m) in
        NoDup candidates
        /\ (forall i, (i < length candidates)%nat ->
              fst (get_available_port connect_ex i m)
              = Ok (nth i candidates 0))
        /\ (forall q, In q candidates ->
              exists rnd, fst (get_available_port connect_ex rnd m) = Ok q)
        /\ (forall i j, (i < length candidates)%nat ->
              (j < length candidates)%nat -> i <> j ->
              fst (get_available_port connect_ex i m)
              <> fst (get_available_port connect_ex j m))).
Proof.
  intros m.
  assert (Hm : allocator_inv m) by apply alloc_run_inv, init_inv.
  split; [exact Hm|].
  split; [apply NoDup_elements|].
  split; [by apply allocator_inv_bound|].
  split.
  - intros connect_ex rnd p m' E.
    pose proof (get_available_port_ok _ _ _ _ _ E) as [Hin Em'].
    pose proof (proj1 (available_ports_spec _ _ _) Hin) as (Hr & Hfree & _).
    assert (Hpos : available_ports connect_ex (used_ports m)
                   !! (rnd mod length
                         (available_ports connect_ex (used_ports m)))%nat
                   = Some p).
    { revert E. unfold get_available_port, random_choice.
      destruct (available_ports connect_ex (used_ports m)) as [|q l] eqn:El;
        [discriminate|].
      intros [= <- _].
      destruct (nth_lookup_or_length (q :: l)
                  (rnd mod length (q :: l))%nat 0) as [H|H]; [exact H|].
      pose proof (Nat.mod_upper_bound rnd (length (q :: l))) as Hlt.
      cbn [length] in *. lia. }
    subst m'. simpl. repeat split; (done || apply Hr).
  - intros connect_ex candidates.
    pose proof (NoDup_available_ports connect_ex (used_ports m)) as Hnd.
    split; [exact Hnd|].
    split; [intros i Hi; by apply get_available_port_draw|].
    split.
    + intros q Hq. apply (In_nth _ _ 0) in Hq as (i & Hi & <-).
      exists i. by apply get_available_port_draw.
    + intros i j Hi Hj Hij.
      rewrite !get_available_port_draw by done. intros [= Heq].
      apply Hij.
      destruct (nth_lookup_or_length candidates i 0) as [Ei|]; [|lia].
      destruct (nth_lookup_or_length candidates j 0) as [Ej|]; [|lia].
      fold candidates in Heq. rewrite <- Heq in Ej.
      exact (proj1 (NoDup_alt candidates) Hnd i j _ Ei Ej).
Qed.

Lemma get_available_port_sound_witness :
  in_range 3006
  /\ (size (used_ports (alloc_run Examples.two_allocations init))
      <= range_size)%nat
  /\ fst (get_available_port Examples.quiet_host 0
            (alloc_run Examples.two_allocations init))
     <> fst (get_available_port Examples.quiet_host 1
               (alloc_run Examples.two_allocations init)).
Proof.
  assert (E : get_available_port Examples.quiet_host 5
                (alloc_run Examples.two_allocations init)
              = (Ok 3006,
                 snd (get_available_port Examples.quiet_host 5
                        (alloc_run Examples.two_allocations init))))
    by (vm_compute; reflexivity).
  assert (L : (1 < length (available_ports Examples.quiet_host
                             (used_ports
                                (alloc_run Examples.two_allocations init))))%nat)
    by (apply Nat.ltb_lt; vm_compute; reflexivity).
  destruct (get_available_port_sound Examples.two_allocations)
    as (_ & _ & Hsize & Hcall & Hdraw).
  destruct (Hcall _ _ _ _ E) as (Hr & _).
  destruct (Hdraw Examples.quiet_host) as (_ & _ & _ & Hdiff).
  split; [exact Hr|]. split; [exact Hsize|].
  apply Hdiff; lia.
Defined.

End PortAllocator.

(** ** Launch *)

Module Launch.

Import DockerContainerManager Traces.

Lemma discard_fresh (p : Z) (used : gset Z) : p ∉ used -> ({[p]} ∪ used) ∖ {[p]} = used.
Proof.
  intros Hp. apply set_eq. intros x.
  rewrite elem_of_difference, elem_of_union, elem_of_singleton.
  split.
  - intros [[-> | Hx] Hne]; [by destruct Hne | exact Hx].
  - intros Hx. split; [by right | intros ->; contradiction].
Qed.

(** C4.  A launch that fails, because no port could be allocated or
    because the engine raised, leaves the claimed ports and the tracking map
    as they were; what is raised is the allocator's "no available ports" or
    the engine's own exception, and the handler, once it holds the manager,
    turns it into one [HTTPException] with status 500, with no row added. *)
Theorem start_meeting_bot_rollback (connect_ex : Z -> option Z) (rnd : nat)
    (uuid4 : string) (time_name time_started : Z) (d : docker)
    (meeting_url user_id : string) (duration : Z) (m m' : manager) (e : exn) :
  start_meeting_bot connect_ex rnd uuid4 time_name time_started d
    meeting_url user_id duration m = (Raise e, m') ->
  used_ports m' = used_ports m
  /\ container_map m' = container_map m
  /\ (e = NoAvailablePorts port_range
      \/ exists request, containers_run d request = Raise e)
  /\ forall from_env a g,
       Routes.get_docker_manager from_env (Routes.docker_manager a)
         = (Ok m, g) ->
       Routes.start_meeting_bot from_env connect_ex rnd uuid4 time_name
         time_started d meeting_url duration user_id a
       = (Routes.HTTPException 500
            ("Failed to start meeting bot: " ++ Routes.message e),
          {| Routes.docker_manager := Some m'; Routes.db := Routes.db a |}).
Proof.
  intros E.
  assert (Hroute : forall from_env a g,
    Routes.get_docker_manager from_env (Routes.docker_manager a)
      = (Ok m, g) ->
    Routes.start_meeting_bot from_env connect_ex rnd uuid4 time_name
      time_started d meeting_url duration user_id a
    = (Routes.HTTPException 500
         ("Failed to start meeting bot: " ++ Routes.message e),
       {| Routes.docker_manager := Some m'; Routes.db := Routes.db a |})).
  { intros from_env a g Hg. unfold Routes.start_meeting_bot.
    rewrite Hg. by rewrite E. }
  unfold start_meeting_bot in E.
  destruct (get_available_port connect_ex rnd m) as [[p|e0] m1] eqn:Ealloc.
  - apply PortAllocator.get_available_port_ok in Ealloc as [Hin ->].
    apply PortAllocator.available_ports_spec in Hin as (_ & Hfree & _).
    match type of E with
    | context [containers_run d ?r] =>
        destruct (containers_run d r) as [cid|e1] eqn:Erun
    end; [discriminate|].
    injection E as <- <-. simpl.
    split; [by apply discard_fresh|].
    split; [reflexivity|]. split; [right; eauto | exact Hroute].
  - apply PortAllocator.get_available_port_raise in Ealloc as [-> ->].
    injection E as <- <-. auto.
Qed.

Lemma start_meeting_bot_rollback_witness :
  used_ports
    (snd (start_meeting_bot Examples.quiet_host 3 "u-1" 1700000000 1700000000
            Examples.refusing_engine "https://meet.google.com/abc-def-ghi"
            "user1" 30 (alloc_run Examples.two_allocations init)))
  = used_ports (alloc_run Examples.two_allocations init).
Proof.
  assert (E : start_meeting_bot Examples.quiet_host 3 "u-1" 1700000000
                1700000000 Examples.refusing_engine
                "https://meet.google.com/abc-def-ghi" "user1" 30
                (alloc_run Examples.two_allocations init)
              = (Raise (DockerError "image not found"),
                 snd (start_meeting_bot Examples.quiet_host 3 "u-1"
                        1700000000 1700000000 Examples.refusing_engine
                        "https://meet.google.com/abc-def-ghi" "user1" 30
                        (alloc_run Examples.two_allocations init))))
    by (vm_compute; reflexivity).
  exact (proj1 (start_meeting_bot_rollback _ _ _ _ _ _ _ _ _ _ _ _ E)).
Defined.

End Launch.

(** ** Reconciliation on listing *)

Module Reconcile.

Import DockerContainerManager Traces Claims.

Lemma get_meeting_bot_status_spec d cid m :
  get_meeting_bot_status d cid m
  = match container_map m !! cid ≫= reconciled d cid with
    | Some info' =>
        (Some info',
         {| used_ports := used_ports m;
            container_map := <[cid := info']> (container_map m) |})
    | None => (None, m)
    end.
Proof.
  unfold get_meeting_bot_status, reconciled.
  destruct (container_map m !! cid) as [info|]; simpl; [|done].
  by destruct (containers_get d cid).
Qed.

Lemma get_all_step_spec d acc m cid :
  let r := get_all_step d (acc, m) cid in
  used_ports (snd r) = used_ports m
  /\ forall k, container_map (snd r) !! k
               = if decide (k = cid)
                 then container_map m !! cid ≫= reconciled d cid
                 else container_map m !! k.
Proof.
  unfold get_all_step. rewrite get_meeting_bot_status_spec.
  destruct (container_map m !! cid ≫= reconciled d cid) as [info'|] eqn:E;
    simpl; (split; [done|]); intros k; destruct (decide (k = cid)) as [->|Hk].
  - by rewrite lookup_insert_eq.
  - by rewrite lookup_insert_ne.
  - by rewrite lookup_delete_eq.
  - by rewrite lookup_delete_ne.
Qed.

Lemma get_all_fold_spec d l :
  NoDup l -> forall acc m,
  let r := fold_left (get_all_step d) l (acc, m) in
  used_ports (snd r) = used_ports m
  /\ forall k, container_map (snd r) !! k
               = if decide (k ∈ l)
                 then container_map m !! k ≫= reconciled d k
                 else container_map m !! k.
Proof.
  induction 1 as [|cid l Hnotin Hnd IH]; intros acc m; cbn [fold_left].
  - split; [done|]. intros k. destruct (decide (k ∈ [])) as [H|]; [|done].
    by apply elem_of_nil in H.
  - pose proof (get_all_step_spec d acc m cid) as [Hu1 Hm1].
    destruct (get_all_step d (acc, m) cid) as [acc1 m1] eqn:E1.
    cbn [snd] in Hu1, Hm1.
    destruct (IH acc1 m1) as [Hu Hm]. split; [congruence|].
    intros k. rewrite Hm, !Hm1.
    destruct (decide (k = cid)) as [->|Hk].
    + destruct (decide (cid ∈ l)); [contradiction|].
      destruct (decide (cid ∈ cid :: l)) as [|Hn]; [done|].
      destruct Hn. apply elem_of_cons. by left.
    + destruct (decide (k ∈ l)) as [Hin|Hin];
        destruct (decide (k ∈ cid :: l)) as [Hin'|Hin']; try done.
      * destruct Hin'. apply elem_of_cons. by right.
      * apply elem_of_cons in Hin' as [?|?]; contradiction.
Qed.

Lemma elem_of_keys m cid : cid ∈ keys m <-> is_Some (container_map m !! cid).
Proof.
  unfold keys. rewrite list_elem_of_fmap. split.
  - intros [[k info] [-> Hin]]. apply elem_of_map_to_list in Hin. by eexists.
  - intros [info Hin]. exists (cid, info). split; [done|].
    by apply elem_of_map_to_list.
Qed.

(** What [get_all_meeting_bots] leaves behind: the claimed ports as they
    were, and of every tracked entry its reconciled version. *)
Lemma get_all_meeting_bots_spec d m :
  let m' := snd (get_all_meeting_bots d m) in
  used_ports m' = used_ports m
  /\ forall cid,
       container_map m' !! cid = container_map m !! cid ≫= reconciled d cid.
Proof.
  unfold get_all_meeting_bots.
  destruct (get_all_fold_spec d (keys m) (NoDup_fst_map_to_list _) [] m)
    as [Hu Hm].
  split; [exact Hu|]. intros cid. rewrite Hm.
  destruct (decide (cid ∈ keys m)) as [|Hn]; [done|].
  rewrite elem_of_keys in Hn.
  destruct (container_map m !! cid) eqn:E; [|done].
  destruct Hn. by eexists.
Qed.

Lemma status_of_docker_cases container_status old :
  (container_status = "running" ->
   status_of_docker container_status old = "running")
  /\ (container_status = "exited" ->
      status_of_docker container_status old = "stopped")
  /\ (container_status = "created" ->
      status_of_docker container_status old = "starting")
  /\ (container_status <> "running" -> container_status <> "exited" ->
      container_status <> "created" ->
      status_of_docker container_status old = old).
Proof.
  unfold status_of_docker. repeat split.
  - by intros ->.
  - by intros ->.
  - by intros ->.
  - intros H1 H2 H3.
    apply String.eqb_neq in H1, H2, H3. by rewrite H1, H2, H3.
Qed.

(** C3, as worded, fails twice on a worker just launched: for a container
    the engine reports as [exited] the status on record becomes
    [stopped], and for one the engine does not know it stays [starting];
    neither is [failed]. *)
Lemma exited_and_unknown_not_failed :
  ~ reconciles_as_worded (Examples.engine_reporting "exited") "c1"
      Examples.one_worker
  /\ ~ reconciles_as_worded Examples.engine_gone "c1" Examples.one_worker
  /\ recorded_status
       (snd (get_meeting_bot_status (Examples.engine_reporting "exited")
               "c1" Examples.one_worker)) "c1" = Some "stopped"
  /\ recorded_status
       (snd (get_meeting_bot_status Examples.engine_gone "c1"
               Examples.one_worker)) "c1" = Some "starting".
Proof.
  split; [|split; [|split]].
  - intros [_ H]. specialize (H eq_refl). vm_compute in H.
    assert (Hne : Some "starting" <> Some "stopped") by discriminate.
    specialize (H Hne). discriminate.
  - intros H. vm_compute in H. discriminate.
  - vm_compute. reflexivity.
  - vm_compute. reflexivity.
Qed.

(** C3, amended.  For a tracked worker the status check maps the engine's
    state onto the recorded status as: [running] to [running], [exited] to
    [stopped], [created] to [starting], and any other state leaves the
    status as it was; the result is returned and written to the tracking
    map.  When the engine does not know the container the check returns
    nothing and writes nothing, and the listing drops the worker from the
    tracking map. *)
Theorem get_meeting_bot_status_mapping (d : docker) (cid : string)
    (m : manager) (info : container_info) :
  container_map m !! cid = Some info ->
  match containers_get d cid with
  | Some container_status =>
      exists info',
        get_meeting_bot_status d cid m
        = (Some info',
           {| used_ports := used_ports m;
              container_map := <[cid := info']> (container_map m) |})
        /\ port info' = port info
        /\ (container_status = "running" -> status info' = "running")
        /\ (container_status = "exited" -> status info' = "stopped")
        /\ (container_status = "created" -> status info' = "starting")
        /\ (container_status <> "running" -> container_status <> "exited" ->
            container_status <> "created" -> status info' = status info)
  | None =>
      get_meeting_bot_status d cid m = (None, m)
      /\ container_map (snd (get_all_meeting_bots d m)) !! cid = None
  end.
Proof.
  intros Hc. rewrite get_meeting_bot_status_spec, Hc. simpl.
  destruct (get_all_meeting_bots_spec d m) as [_ Hm].
  unfold reconciled in *.
  destruct (containers_get d cid) as [st|] eqn:Hg; simpl.
  - exists (observe st info). split; [done|]. split; [done|].
    apply status_of_docker_cases.
  - split; [done|]. rewrite Hm, Hc. simpl. by rewrite Hg.
Qed.

Lemma get_meeting_bot_status_mapping_witness :
  exists info',
    fst (get_meeting_bot_status (Examples.engine_reporting "exited") "c1"
           Examples.one_worker) = Some info'
    /\ status info' = "stopped".
Proof.
  pose proof (get_meeting_bot_status_mapping
                (Examples.engine_reporting "exited") "c1"
                Examples.one_worker Examples.one_worker_info) as H.
  simpl in H.
  destruct H as (info' & E & _ & _ & Hex & _).
  - vm_compute. reflexivity.
  - exists info'. rewrite E. split; [reflexivity | by apply Hex].
Defined.

End Reconcile.

(** ** Cleanup *)

Module Cleanup.

Import DockerContainerManager Traces Claims.

Lemma cleanup_scan_tracked d cm dl used cid info :
  cm !! cid = Some info ->
  cleanup_scan d cm (dl, used) (cid, info)
  = if dead d cid then ((dl ++ [cid])%list, used ∖ {[port info]})
    else (dl, used).
Proof.
  intros Hc. unfold cleanup_scan, dead.
  destruct (containers_get d cid) as [st|]; [|by rewrite Hc].
  by destruct (String.eqb st "exited").
Qed.

Lemma cleanup_scan_fold d cm l :
  (forall cid info, (cid, info) ∈ l -> cm !! cid = Some info) ->
  forall dl used,
  let r := fold_left (cleanup_scan d cm) l (dl, used) in
  fst r = (dl ++ (filter (fun kv : string * container_info =>
                            dead d (fst kv) = true) l).*1)%list
  /\ forall p, p ∈ snd r <->
       p ∈ used /\ forall cid info,
         (cid, info) ∈ l -> dead d cid = true -> port info <> p.
Proof.
  induction l as [|[cid info] l IH]; intros Hl dl used; cbn [fold_left].
  - split; [by rewrite filter_nil, app_nil_r|].
    intros p. split; [|tauto]. intros Hp. split; [done|].
    intros ? ? H. by apply elem_of_nil in H.
  - rewrite (cleanup_scan_tracked d cm dl used cid info)
      by (apply Hl; apply elem_of_cons; by left).
    assert (Hl' : forall c i, (c, i) ∈ l -> cm !! c = Some i)
      by (intros c i Hin; apply Hl, elem_of_cons; by right).
    destruct (dead d cid) eqn:Hd.
    + destruct (IH Hl' (dl ++ [cid])%list (used ∖ {[port info]})) as [H1 H2].
      split.
      * rewrite H1, filter_cons_True by done.
        by rewrite fmap_cons, <- app_assoc.
      * intros p. rewrite H2, elem_of_difference, elem_of_singleton.
        split.
        -- intros [[Hp Hne] Hrest]. split; [done|].
           intros c i [[= -> ->]|Hin]%elem_of_cons Hdc; [congruence|eauto].
        -- intros [Hp Hall]. split; [split; [done|]|].
           ++ intros ->. eapply (Hall cid info); [|done..].
              apply elem_of_cons; by left.
           ++ intros c i Hin. apply Hall, elem_of_cons; by right.
    + destruct (IH Hl' dl used) as [H1 H2]. split.
      * rewrite H1, filter_cons_False; [done|]. simpl. congruence.
      * intros p. rewrite H2. split; intros [Hp Hall]; (split; [done|]).
        -- intros c i [[= -> ->]|Hin]%elem_of_cons Hdc; [congruence|eauto].
        -- intros c i Hin. apply Hall, elem_of_cons; by right.
Qed.

Lemma cleanup_remove_lookup dl cm k :
  cleanup_remove dl cm !! k = if decide (k ∈ dl) then None else cm !! k.
Proof.
  unfold cleanup_remove. revert cm.
  induction dl as [|c dl IH]; intros cm; cbn [fold_left].
  - destruct (decide (k ∈ [])) as [H|]; [by apply elem_of_nil in H|done].
  - rewrite IH. destruct (decide (k ∈ dl)) as [Hin|Hin].
    + destruct (decide (k ∈ c :: dl)) as [|Hn]; [done|].
      destruct Hn. apply elem_of_cons; by right.
    + destruct (decide (k = c)) as [->|Hne].
      * rewrite lookup_delete_eq.
        destruct (decide (c ∈ c :: dl)) as [|Hn]; [done|].
        destruct Hn. apply elem_of_cons; by left.
      * rewrite lookup_delete_ne by done.
        destruct (decide (k ∈ c :: dl)) as [[?|?]%elem_of_cons|]; done.
Qed.

Lemma filter_map_to_list_length (P : string * container_info -> Prop)
    `{!forall kv, Decision (P kv)} (cm : gmap string container_info) :
  length (filter P (map_to_list cm)) = size (filter P cm).
Proof.
  rewrite <- length_map_to_list. apply Permutation_length.
  apply NoDup_Permutation.
  - apply NoDup_filter, NoDup_map_to_list.
  - apply NoDup_map_to_list.
  - intros [k v]. rewrite list_elem_of_filter, !elem_of_map_to_list.
    rewrite map_lookup_filter_Some. tauto.
Qed.

(** The list [dead_containers] that the first loop builds. *)
Lemma cleanup_dead_containers_unfold (d : docker) (m : manager) :
  let dl := (filter (fun kv : string * container_info =>
                       dead d (fst kv) = true)
                    (map_to_list (container_map m))).*1 in
  exists used,
    cleanup_dead_containers d m
    = (length dl,
       {| used_ports := used;
          container_map := cleanup_remove dl (container_map m) |})
    /\ forall p, p ∈ used <->
         p ∈ used_ports m
         /\ forall cid info, container_map m !! cid = Some info ->
              dead d cid = true -> port info <> p.
Proof.
  intros dl. unfold cleanup_dead_containers.
  pose proof (cleanup_scan_fold d (container_map m)
                (map_to_list (container_map m))) as H.
  destruct (H (fun c i Hin => proj1 (elem_of_map_to_list _ c i) Hin)
              [] (used_ports m)) as [H1 H2]. clear H.
  destruct (fold_left (cleanup_scan d (container_map m))
              (map_to_list (container_map m)) ([], used_ports m))
    as [dl0 used] eqn:E.
  cbn [fst snd] in *. rewrite app_nil_l in H1. subst dl0.
  exists used. split; [reflexivity|].
  intros p. rewrite H2. split; intros [Hp Hall]; (split; [done|]).
  - intros c i Hc. by apply Hall, elem_of_map_to_list.
  - intros c i Hin. by apply Hall, elem_of_map_to_list.
Qed.

Lemma elem_of_dead_list d (cm : gmap string container_info) k :
  k ∈ (filter (fun kv : string * container_info => dead d (fst kv) = true)
              (map_to_list cm)).*1
  <-> is_Some (cm !! k) /\ dead d k = true.
Proof.
  rewrite list_elem_of_fmap. split.
  - intros [[k' v] [-> Hin]].
    apply list_elem_of_filter in Hin as [Hd Hin].
    apply elem_of_map_to_list in Hin. split; [by eexists | done].
  - intros [[v Hk] Hd]. exists (k, v). split; [done|].
    apply list_elem_of_filter. split; [done|]. by apply elem_of_map_to_list.
Qed.

(** C8, amended.  A cleanup call removes from the tracking map exactly the
    entries whose container the engine reports as [exited] or does not know,
    returns the number of these entries, and releases their ports and no
    other. *)
Theorem cleanup_dead_containers_spec (d : docker) (m : manager) :
  let r := cleanup_dead_containers d m in
  container_map (snd r)
    = filter (fun kv : string * container_info => dead d (fst kv) = false)
             (container_map m)
  /\ fst r
     = size (filter (fun kv : string * container_info =>
                       dead d (fst kv) = true) (container_map m))
  /\ forall p, p ∈ used_ports (snd r) <->
       p ∈ used_ports m
       /\ forall cid info, container_map m !! cid = Some info ->
            dead d cid = true -> port info <> p.
Proof.
  destruct (cleanup_dead_containers_unfold d m) as (used & -> & Hused).
  cbv zeta. simpl.
  split; [|split].
  - apply map_eq. intros k.
    rewrite cleanup_remove_lookup, map_lookup_filter. simpl.
    destruct (decide (k ∈ _)) as [Hin|Hin].
    + apply elem_of_dead_list in Hin as [[v Hk] Hd]. rewrite Hk. simpl.
      rewrite option_guard_False; [done|congruence].
    + destruct (container_map m !! k) as [v|] eqn:Hk; simpl; [|done].
      rewrite option_guard_True; [done|].
      destruct (dead d k) eqn:Hd; [|done]. destruct Hin.
      apply elem_of_dead_list. split; [by eexists | done].
  - rewrite length_fmap. apply filter_map_to_list_length.
  - exact Hused.
Qed.

(** C8, as worded, fails: a tracked container that the engine still knows,
    in state [exited], is removed and counted. *)
Lemma cleanup_counts_exited :
  ~ cleans_as_worded (Examples.engine_reporting "exited") Examples.one_worker.
Proof.
  intros [H _]. specialize (H "c1"). vm_compute in H. discriminate.
Qed.

End Cleanup.

(** ** Stop of a worker whose container is gone *)

Module Worker.

Import DockerContainerManager Traces Claims.

Lemma one_worker_tracked :
  recorded_status Examples.one_worker "c1" = Some "starting"
  /\ used_ports Examples.one_worker = {[3001]}.
Proof. split; vm_compute; reflexivity. Qed.

Lemma gone_is_dead d cid : containers_get d cid = None -> dead d cid = true.
Proof. unfold dead. by intros ->. Qed.

(** C6 on the code.  [stop_meeting_bot] returns a boolean in all cases,
    but for a tracked worker whose container the engine no longer knows it
    returns [False], not success, and releases nothing: the worker stays
    tracked and its port stays claimed.  [cleanup_dead_containers], for the
    same worker and the same engine, drops the worker and releases its
    port. *)
Theorem stop_meeting_bot_gone (d : docker) (cid : string) (m : manager)
    (info : container_info) :
  container_map m !! cid = Some info ->
  containers_get d cid = None ->
  stop_meeting_bot d cid m = (false, m)
  /\ container_map (snd (stop_meeting_bot d cid m)) !! cid = Some info
  /\ (port info ∈ used_ports m ->
      port info ∈ used_ports (snd (stop_meeting_bot d cid m)))
  /\ container_map (snd (cleanup_dead_containers d m)) !! cid = None
  /\ (port info ∉ used_ports (snd (cleanup_dead_containers d m))).
Proof.
  intros Ht Hg.
  assert (E : stop_meeting_bot d cid m = (false, m))
    by (unfold stop_meeting_bot; by rewrite Ht, Hg).
  rewrite E. cbn [snd].
  split; [done|]. split; [done|]. split; [done|].
  destruct (Cleanup.cleanup_dead_containers_unfold d m) as (used & -> & Hu).
  cbn [snd used_ports container_map]. split.
  - rewrite Cleanup.cleanup_remove_lookup.
    destruct (decide (cid ∈ _)) as [|Hn]; [done|].
    destruct Hn. apply Cleanup.elem_of_dead_list.
    split; [by eexists | by apply gone_is_dead].
  - intros Hp. apply Hu in Hp as [_ Hall].
    by apply (Hall cid info Ht (gone_is_dead d cid Hg)).
Qed.

Lemma stop_meeting_bot_gone_witness :
  stop_meeting_bot Examples.engine_gone "c1" Examples.one_worker
  = (false, Examples.one_worker)
  /\ (3001 ∈ used_ports Examples.one_worker ->
      3001 ∈ used_ports
               (snd (stop_meeting_bot Examples.engine_gone "c1"
                       Examples.one_worker)))
  /\ (3001 ∉ used_ports
               (snd (cleanup_dead_containers Examples.engine_gone
                       Examples.one_worker))).
Proof.
  destruct (stop_meeting_bot_gone Examples.engine_gone "c1"
              Examples.one_worker Examples.one_worker_info)
    as (E & _ & Hkept & _ & Hfreed).
  - vm_compute. reflexivity.
  - reflexivity.
  - exact (conj E (conj Hkept Hfreed)).
Defined.

End Worker.

(** ** Release of the port of a launched worker *)

Module Ports.

Import DockerContainerManager Traces Claims.

Lemma leaked_step p m o : leaked p m -> leaked p (manager_step m o).
Proof.
  intros [Hp Hfree]. destruct o as [d cid | d | d]; simpl.
  - unfold stop_meeting_bot.
    destruct (container_map m !! cid) as [info|] eqn:Hc; [|done].
    destruct (containers_get d cid); [|done].
    destruct (container_stop d cid); [|done]. simpl. split.
    + apply elem_of_difference. split; [done|].
      rewrite elem_of_singleton. intros ->. by eapply Hfree.
    + intros c i Hci. simpl in Hci.
      apply lookup_delete_Some in Hci as [_ Hci]. eauto.
  - destruct (Reconcile.get_all_meeting_bots_spec d m) as [Hu Hm].
    split; [by rewrite Hu|]. intros c i. rewrite Hm.
    destruct (container_map m !! c) as [i0|] eqn:Hc; [|done]. simpl.
    unfold reconciled. destruct (containers_get d c); [|done].
    intros [= <-]. simpl. eauto.
  - destruct (Cleanup.cleanup_dead_containers_unfold d m) as (used & -> & Hu).
    unfold leaked. cbn [snd used_ports container_map].
    split; [apply Hu; split; eauto|].
    intros c i. rewrite Cleanup.cleanup_remove_lookup.
    destruct (decide (c ∈ _)); [done | eauto].
Qed.

Lemma leaked_run p ops m : leaked p m -> leaked p (manager_run ops m).
Proof.
  unfold manager_run. revert m.
  induction ops as [|o ops IH]; intros m Hm; [done|].
  apply IH, leaked_step, Hm.
Qed.

Lemma untracked_step cid m o :
  container_map m !! cid = None ->
  container_map (manager_step m o) !! cid = None.
Proof.
  intros Hc. destruct o as [d c | d | d]; simpl.
  - unfold stop_meeting_bot.
    destruct (container_map m !! c) as [info|]; [|done].
    destruct (containers_get d c); [|done].
    destruct (container_stop d c); [|done]. simpl.
    apply lookup_delete_None. by right.
  - destruct (Reconcile.get_all_meeting_bots_spec d m) as [_ Hm].
    by rewrite Hm, Hc.
  - destruct (Cleanup.cleanup_dead_containers_unfold d m) as (used & -> & _).
    cbn [snd container_map]. rewrite Cleanup.cleanup_remove_lookup.
    by destruct (decide (cid ∈ _)).
Qed.

Lemma untracked_run cid ops m :
  container_map m !! cid = None ->
  container_map (manager_run ops m) !! cid = None.
Proof.
  unfold manager_run. revert m.
  induction ops as [|o ops IH]; intros m Hm; [done|].
  apply IH, untracked_step, Hm.
Qed.

(** C1 on the code.  When the engine has lost the container of a tracked
    worker, a listing drops the worker from the tracking map and leaves its
    port claimed; no later stop, listing or cleanup releases it.  (The
    hypothesis on [m] says that the worker holds its port alone, as
    [get_available_port] arranges.) *)
Theorem listing_leaks_port (d : docker) (cid : string) (m : manager)
    (info : container_info) (ops : list manager_op) :
  container_map m !! cid = Some info ->
  port info ∈ used_ports m ->
  (forall c i, container_map m !! c = Some i -> port i = port info -> c = cid) ->
  containers_get d cid = None ->
  let m' := manager_run ops (snd (get_all_meeting_bots d m)) in
  container_map m' !! cid = None /\ port info ∈ used_ports m'.
Proof.
  intros Hc Hp Huniq Hgone m'.
  destruct (Reconcile.get_all_meeting_bots_spec d m) as [Hu Hm].
  assert (Hdrop : container_map (snd (get_all_meeting_bots d m)) !! cid = None).
  { rewrite Hm, Hc. simpl. unfold reconciled. by rewrite Hgone. }
  split; [by apply untracked_run|].
  apply (leaked_run (port info) ops). split; [by rewrite Hu|].
  intros c i. rewrite Hm.
  destruct (container_map m !! c) as [i0|] eqn:Hc0; [|done]. simpl.
  unfold reconciled.
  destruct (containers_get d c) as [st|] eqn:Hg; [|done].
  intros [= <-]. simpl. intros Heq.
  pose proof (Huniq c i0 Hc0 Heq) as ->. congruence.
Qed.

Lemma listing_leaks_port_witness :
  let m' :=
    manager_run Examples.after_the_loss
      (snd (get_all_meeting_bots Examples.engine_gone Examples.one_worker)) in
  container_map m' !! "c1" = None /\ 3001 ∈ used_ports m'.
Proof.
  assert (Hmap : container_map Examples.one_worker
                 = {["c1" := Examples.one_worker_info]})
    by (vm_compute; reflexivity).
  apply (listing_leaks_port Examples.engine_gone "c1" Examples.one_worker
           Examples.one_worker_info Examples.after_the_loss).
  - vm_compute. reflexivity.
  - vm_compute. reflexivity.
  - intros c i. rewrite Hmap. intros [-> _]%lookup_singleton_Some. done.
  - reflexivity.
Defined.

End Ports.

(** ** The handlers *)

Module Handlers.

Import Routes Traces Claims.

(** *** Rows and their updates *)

Lemma first_Some_owned P rows meeting :
  first P rows = Some meeting -> P meeting = true /\ In meeting rows.
Proof.
  unfold first. intros H. apply find_some in H. tauto.
Qed.

Lemma owned_set_status meeting_id current_user s meeting :
  owned meeting_id current_user (set_status s meeting)
  = owned meeting_id current_user meeting.
Proof. reflexivity. Qed.

Lemma owned_mark_stopped meeting_id current_user meeting :
  owned meeting_id current_user (mark_stopped meeting)
  = owned meeting_id current_user meeting.
Proof. reflexivity. Qed.

(** After the write, the query finds the written row. *)
Lemma first_update_first P f rows meeting :
  (forall r, P (f r) = P r) ->
  first P rows = Some meeting ->
  first P (update_first P f rows) = Some (f meeting).
Proof.
  intros Hf. unfold first.
  induction rows as [|r rows IH]; simpl; [discriminate|].
  destruct (P r) eqn:E.
  - intros [= ->]. simpl. by rewrite Hf, E.
  - intros H. simpl. rewrite E. by apply IH.
Qed.

(** The write touches no row but the one the query found. *)
Lemma update_first_other P f rows i r :
  rows !! i = Some r ->
  first P rows <> Some r ->
  update_first P f rows !! i = Some r.
Proof.
  unfold first. revert i.
  induction rows as [|x rows IH]; intros i Hi Hne; simpl in *; [done|].
  destruct (P x) eqn:E.
  - destruct i as [|i]; simpl in *; [congruence | done].
  - destruct i as [|i]; simpl in *; [done | by apply IH].
Qed.

(** *** Pause and resume *)

(** What a control call that succeeds leaves of the row it found. *)
Lemma set_status_row s meeting :
  status (set_status s meeting) = s
  /\ id (set_status s meeting) = id meeting
  /\ user_id (set_status s meeting) = user_id meeting
  /\ container_id (set_status s meeting) = container_id meeting
  /\ port (set_status s meeting) = port meeting.
Proof. by repeat split. Qed.

(** C9.  For a row of the caller with a container id, a pause or resume
    call whose control request does not come back with status 200 (another
    status, or an error of the transport such as a timeout or a refused
    connection) fails with the handler's [HTTPException] and changes
    nothing, so the status of the row stays what it was; one that comes
    back with 200 succeeds, and the row the query then finds has status
    [paused], respectively [running], with id, owner, container id and port
    as before, and every other row is as before. *)
Theorem control_call_outcome (post : string -> post_result)
    (meeting_id current_user : string) (a : app)
    (meeting : User_google_meeting_data) :
  first (owned meeting_id current_user) (db a) = Some meeting ->
  truthy (container_id meeting) = true ->
  (succeeded (post (control_url meeting meeting_id "pause")) = false ->
   pause_meeting post meeting_id current_user a
   = (HTTPException 500 "Failed to pause meeting", a)
   /\ exists row,
        first (owned meeting_id current_user)
          (db (snd (pause_meeting post meeting_id current_user a)))
        = Some row
        /\ status row = status meeting)
  /\ (succeeded (post (control_url meeting meeting_id "pause")) = true ->
      let r := pause_meeting post meeting_id current_user a in
      fst r = Return "Meeting paused successfully"
      /\ docker_manager (snd r) = docker_manager a
      /\ first (owned meeting_id current_user) (db (snd r))
         = Some (set_status "paused" meeting)
      /\ (exists row,
            first (owned meeting_id current_user) (db (snd r)) = Some row
            /\ status row = "paused"
            /\ id row = id meeting
            /\ user_id row = user_id meeting
            /\ container_id row = container_id meeting
            /\ port row = port meeting)
      /\ (forall i other,
            db a !! i = Some other -> other <> meeting ->
            db (snd r) !! i = Some other))
  /\ (succeeded (post (control_url meeting meeting_id "resume")) = false ->
      resume_meeting post meeting_id current_user a
      = (HTTPException 500 "Failed to resume meeting", a)
      /\ exists row,
           first (owned meeting_id current_user)
             (db (snd (resume_meeting post meeting_id current_user a)))
           = Some row
           /\ status row = status meeting)
  /\ (succeeded (post (control_url meeting meeting_id "resume")) = true ->
      let r := resume_meeting post meeting_id current_user a in
      fst r = Return "Meeting resumed successfully"
      /\ docker_manager (snd r) = docker_manager a
      /\ first (owned meeting_id current_user) (db (snd r))
         = Some (set_status "running" meeting)
      /\ (exists row,
            first (owned meeting_id current_user) (db (snd r)) = Some row
            /\ status row = "running"
            /\ id row = id meeting
            /\ user_id row = user_id meeting
            /\ container_id row = container_id meeting
            /\ port row = port meeting)
      /\ (forall i other,
            db a !! i = Some other -> other <> meeting ->
            db (snd r) !! i = Some other)).
Proof.
  intros Hfirst Htruthy.
  assert (Hwritten : forall s,
    first (owned meeting_id current_user)
      (update_first (owned meeting_id current_user) (set_status s) (db a))
    = Some (set_status s meeting)).
  { intros s. apply first_update_first; [|done].
    intros r. apply owned_set_status. }
  assert (Hothers : forall s i other,
    db a !! i = Some other -> other <> meeting ->
    update_first (owned meeting_id current_user) (set_status s) (db a) !! i
    = Some other).
  { intros s i other Hi Hne. apply update_first_other; [done|].
    rewrite Hfirst. by intros [= ->]. }
  unfold pause_meeting, resume_meeting. rewrite Hfirst, Htruthy.
  split; [|split; [|split]].
  - destruct (post _) as [code|]; simpl.
    + intros ->. split; [done|]. exists meeting. split; [exact Hfirst|done].
    + intros _. split; [done|]. exists meeting. split; [exact Hfirst|done].
  - destruct (post _) as [code|]; simpl; [|done]. intros ->. simpl.
    split; [done|]. split; [done|]. split; [apply Hwritten|].
    split; [|apply Hothers].
    exists (set_status "paused" meeting).
    split; [apply Hwritten | apply set_status_row].
  - destruct (post _) as [code|]; simpl.
    + intros ->. split; [done|]. exists meeting. split; [exact Hfirst|done].
    + intros _. split; [done|]. exists meeting. split; [exact Hfirst|done].
  - destruct (post _) as [code|]; simpl; [|done]. intros ->. simpl.
    split; [done|]. split; [done|]. split; [apply Hwritten|].
    split; [|apply Hothers].
    exists (set_status "running" meeting).
    split; [apply Hwritten | apply set_status_row].
Qed.

Lemma control_call_outcome_witness :
  (pause_meeting Examples.unreachable "uuid-1" "user1" Examples.app_started
   = (HTTPException 500 "Failed to pause meeting", Examples.app_started)
   /\ status Examples.started_row = "starting")
  /\ (exists row,
        first (owned "uuid-1" "user1")
          (db (snd (pause_meeting Examples.answering "uuid-1" "user1"
                      Examples.app_started)))
        = Some row
        /\ status row = "paused")
  /\ (exists row,
        first (owned "uuid-1" "user1")
          (db (snd (resume_meeting Examples.answering "uuid-1" "user1"
                      Examples.app_started)))
        = Some row
        /\ status row = "running").
Proof.
  assert (Hrow : first (owned "uuid-1" "user1") (db Examples.app_started)
                 = Some Examples.started_row)
    by (vm_compute; reflexivity).
  destruct (control_call_outcome Examples.unreachable "uuid-1" "user1"
              Examples.app_started Examples.started_row Hrow eq_refl)
    as (Hfail & _).
  destruct (control_call_outcome Examples.answering "uuid-1" "user1"
              Examples.app_started Examples.started_row Hrow eq_refl)
    as (_ & Hpause & _ & Hresume).
  destruct (Hfail eq_refl) as (Efail & _).
  destruct (Hpause eq_refl) as (_ & _ & _ & (row1 & E1 & S1 & _) & _).
  destruct (Hresume eq_refl) as (_ & _ & _ & (row2 & E2 & S2 & _) & _).
  split; [split; [exact Efail | reflexivity]|].
  split; [exists row1 | exists row2]; by split.
Defined.

(** *** Stop *)

Lemma first_None_not_owned meeting_id current_user rows :
  (forall row, row ∈ rows -> id row = meeting_id ->
               user_id row <> current_user) ->
  first (owned meeting_id current_user) rows = None.
Proof.
  intros H. unfold first.
  destruct (find (owned meeting_id current_user) rows) as [row|] eqn:E;
    [|done].
  apply find_some in E as [Hin Ho]. unfold owned in Ho.
  apply andb_true_iff in Ho as [Hid Hu].
  apply String.eqb_eq in Hid, Hu.
  destruct (H row); [by apply list_elem_of_In | done | done].
Qed.

Lemma stop_meeting_no_container from_env d meeting_id current_user a meeting :
  first (owned meeting_id current_user) (db a) = Some meeting ->
  truthy (container_id meeting) = false ->
  stop_meeting from_env d meeting_id current_user a
  = (HTTPException 400 "Meeting bot not running", a).
Proof.
  intros Hf Ht. unfold stop_meeting. rewrite Hf.
  destruct (container_id meeting) as [cid|]; [|done]. by rewrite Ht.
Qed.

(** What a stop that succeeds leaves: the row found, marked stopped, with
    neither container id nor port. *)
Lemma stop_meeting_success from_env d meeting_id current_user a msg a1 :
  stop_meeting from_env d meeting_id current_user a = (Return msg, a1) ->
  exists meeting,
    first (owned meeting_id current_user) (db a) = Some meeting
    /\ db a1 = update_first (owned meeting_id current_user) mark_stopped (db a)
    /\ first (owned meeting_id current_user) (db a1)
       = Some (mark_stopped meeting).
Proof.
  unfold stop_meeting.
  destruct (first (owned meeting_id current_user) (db a)) as [meeting|] eqn:Hf;
    [|discriminate].
  destruct (container_id meeting) as [cid|]; [|discriminate].
  destruct (truthy (Some cid)); [|discriminate].
  destruct (get_docker_manager from_env (docker_manager a)) as [[m|[c dt]] g];
    [|discriminate].
  destruct (DCM.stop_meeting_bot d cid m) as [[|] m']; [|discriminate].
  intros [= <- <-]. exists meeting. simpl. split; [done|]. split; [done|].
  apply first_update_first; [|done]. intros r. apply owned_mark_stopped.
Qed.

(** C7.  A stop request for an id that no row of the caller carries (no
    such worker, or the worker of another user) fails with status 404 and
    changes nothing.  A stop that went through leaves the row of the worker
    stopped: status [stopped], neither container id nor port; and a stop
    request for a row of the caller without container id fails with status
    400 and changes nothing, neither the rows nor the claimed ports nor the
    tracked workers.  So a stop repeated after one that succeeded fails in
    this way, whatever the engine then shows, asks the engine for nothing
    and releases no port a second time. *)
Theorem stop_meeting_errors (from_env : bool) (d : DCM.docker)
    (meeting_id current_user : string) (a : app) :
  ((forall row, row ∈ db a -> id row = meeting_id ->
                user_id row <> current_user) ->
   stop_meeting from_env d meeting_id current_user a
   = (HTTPException 404 "Meeting not found", a))
  /\ (forall meeting,
        first (owned meeting_id current_user) (db a) = Some meeting ->
        truthy (container_id meeting) = false ->
        stop_meeting from_env d meeting_id current_user a
        = (HTTPException 400 "Meeting bot not running", a))
  /\ (forall msg a1,
        stop_meeting from_env d meeting_id current_user a = (Return msg, a1) ->
        (exists row,
           first (owned meeting_id current_user) (db a1) = Some row
           /\ status row = "stopped"
           /\ container_id row = None
           /\ port row = None)
        /\ forall from_env' d',
             let r := stop_meeting from_env' d' meeting_id current_user a1 in
             r = (HTTPException 400 "Meeting bot not running", a1)
             /\ db (snd r) = db a1
             /\ docker_manager (snd r) = docker_manager a1).
Proof.
  split; [|split].
  - intros H. unfold stop_meeting.
    by rewrite (first_None_not_owned _ _ _ H).
  - intros meeting. apply stop_meeting_no_container.
  - intros msg a1 E.
    apply stop_meeting_success in E as (meeting & _ & _ & Hf1).
    split; [by exists (mark_stopped meeting)|].
    intros from_env' d' r. subst r.
    by rewrite (stop_meeting_no_container from_env' d' _ _ _ _ Hf1 eq_refl).
Qed.

Lemma stop_meeting_errors_witness :
  stop_meeting true Examples.engine_gone "uuid-1" "user1"
    Examples.app_stopped
  = (HTTPException 400 "Meeting bot not running", Examples.app_stopped)
  /\ stop_meeting true Examples.engine_gone "uuid-1" "user2"
       Examples.app_started
     = (HTTPException 404 "Meeting not found", Examples.app_started).
Proof.
  split.
  - destruct (proj2 (proj2 (stop_meeting_errors true
                              (Examples.engine_reporting "running")
                              "uuid-1" "user1" Examples.app_started))
                "Meeting stopped successfully" Examples.app_stopped)
      as (_ & Hagain).
    + vm_compute. reflexivity.
    + exact (proj1 (Hagain true Examples.engine_gone)).
  - apply (proj1 (stop_meeting_errors true Examples.engine_gone
                    "uuid-1" "user2" Examples.app_started)).
    intros row Hrow _.
    assert (Hdb : db Examples.app_started = [Examples.started_row])
      by (vm_compute; reflexivity).
    rewrite Hdb in Hrow. apply list_elem_of_singleton in Hrow as ->.
    discriminate.
Defined.

(** *** Sticky terminal status *)

Lemma first_truthy_differs P rows meeting r :
  first P rows = Some meeting ->
  truthy (container_id meeting) = true ->
  truthy (container_id r) = false ->
  first P rows <> Some r.
Proof. intros -> Ht Hf [= ->]. congruence. Qed.

(** The listing leaves a row without container id as it is. *)
Lemma refresh_rows_frozen from_env d current_user rows :
  forall g i r,
    rows !! i = Some r ->
    truthy (container_id r) = false ->
    snd (fst (refresh_rows from_env d current_user rows g)) !! i = Some r.
Proof.
  induction rows as [|meeting rest IH]; intros g i r Hi Hr; [done|].
  cbn [refresh_rows].
  assert (Hskip : forall g0,
    snd (fst (let '(e, rest', g') :=
                refresh_rows from_env d current_user rest g0 in
              (e, meeting :: rest', g'))) !! i = Some r).
  { intros g0. specialize (IH g0).
    destruct (refresh_rows from_env d current_user rest g0) as [[e rest'] g'].
    simpl in *. destruct i as [|i]; simpl in *; [done|]. by apply IH. }
  destruct (negb (String.eqb (user_id meeting) current_user)); [apply Hskip|].
  destruct (negb (truthy (container_id meeting))) eqn:Ht; [apply Hskip|].
  destruct (container_id meeting) as [cid|] eqn:Hcid; [|apply Hskip].
  destruct (get_docker_manager from_env g) as [[m|e] g1]; [|done].
  assert (Hi' : i <> 0%nat).
  { intros ->. simpl in Hi. injection Hi as <-.
    rewrite Hcid in Hr. rewrite Hr in Ht. discriminate. }
  destruct i as [|i]; [done|]. simpl in Hi.
  destruct (DCM.get_meeting_bot_status d cid m) as [[info|] m'].
  - specialize (IH (Some m') i r Hi Hr).
    destruct (refresh_rows from_env d current_user rest (Some m'))
      as [[e rest'] g']. exact IH.
  - specialize (IH (Some m') i r Hi Hr).
    destruct (refresh_rows from_env d current_user rest (Some m'))
      as [[e rest'] g']. exact IH.
Qed.

(** No handler writes to a row without container id. *)
Lemma frozen_step a o i r :
  db a !! i = Some r ->
  truthy (container_id r) = false ->
  db (route_step a o) !! i = Some r.
Proof.
  intros Hi Hr.
  destruct o as [from_env connect_ex rnd uuid4 t1 t2 d url duration user
                | from_env d user | post mid user | post mid user
                | from_env d mid user | from_env d | from_env d]; simpl.
  - unfold start_meeting_bot.
    destruct (get_docker_manager from_env (docker_manager a))
      as [[m|[c dt]] g]; [|done].
    destruct (DCM.start_meeting_bot _ _ _ _ _ _ _ _ _ _) as [[info|e] m'];
      [|done].
    simpl. by apply lookup_app_l_Some.
  - unfold get_user_meetings.
    pose proof (refresh_rows_frozen from_env d user (db a)
                  (docker_manager a) i r Hi Hr) as H.
    destruct (refresh_rows from_env d user (db a) (docker_manager a))
      as [[e rows] g]. simpl in H.
    by destruct e as [[c dt]|].
  - unfold pause_meeting.
    destruct (first (owned mid user) (db a)) as [meeting|] eqn:Hf; [|done].
    destruct (truthy (container_id meeting)) eqn:Ht; [|done].
    destruct (post _) as [code|]; [|done].
    destruct (Z.eqb code 200); [|done]. simpl.
    apply update_first_other; [done|].
    rewrite Hf. intros [= ->]. congruence.
  - unfold resume_meeting.
    destruct (first (owned mid user) (db a)) as [meeting|] eqn:Hf; [|done].
    destruct (truthy (container_id meeting)) eqn:Ht; [|done].
    destruct (post _) as [code|]; [|done].
    destruct (Z.eqb code 200); [|done]. simpl.
    apply update_first_other; [done|].
    rewrite Hf. intros [= ->]. congruence.
  - unfold stop_meeting.
    destruct (first (owned mid user) (db a)) as [meeting|] eqn:Hf; [|done].
    destruct (container_id meeting) as [cid|] eqn:Hcid; [|done].
    destruct (truthy (Some cid)) eqn:Ht; [|done].
    destruct (get_docker_manager from_env (docker_manager a))
      as [[m|[c dt]] g]; [|done].
    destruct (DCM.stop_meeting_bot d cid m) as [[|] m']; [|done]. simpl.
    apply update_first_other; [done|].
    rewrite Hf. intros [= ->]. rewrite Hcid in Hr. congruence.
  - unfold get_meeting_bots_status.
    destruct (get_docker_manager from_env (docker_manager a))
      as [[m|[c dt]] g]; [|done].
    by destruct (DCM.get_all_meeting_bots d m).
  - unfold cleanup_meeting_bots.
    destruct (get_docker_manager from_env (docker_manager a))
      as [[m|[c dt]] g]; [|done].
    by destruct (DCM.cleanup_dead_containers d m).
Qed.

Lemma frozen_run ops a i r :
  db a !! i = Some r ->
  truthy (container_id r) = false ->
  db (route_run ops a) !! i = Some r.
Proof.
  unfold route_run. revert a.
  induction ops as [|o ops IH]; intros a Hi Hr; [done|].
  simpl. apply IH; [by apply frozen_step | done].
Qed.

Lemma update_first_at P f rows meeting :
  first P rows = Some meeting ->
  exists i, rows !! i = Some meeting
            /\ update_first P f rows !! i = Some (f meeting).
Proof.
  unfold first. induction rows as [|r rows IH]; simpl; [discriminate|].
  destruct (P r).
  - intros [= ->]. by exists 0%nat.
  - intros H. destruct (IH H) as (i & H1 & H2). by exists (S i).
Qed.

(** C5, as worded, fails: the row that a listing marked [stopped] is set
    to [running] by a resume call that goes through, and by the next
    listing that finds the container running. *)
Lemma reconciled_stop_not_sticky :
  ~ sticky_as_worded (ResumeRequest Examples.answering "uuid-1" "user1")
      Examples.app_after_listing
  /\ ~ sticky_as_worded
         (ListRequest true (Examples.engine_reporting "running") "user1")
         Examples.app_after_listing.
Proof.
  split; intros H;
    (destruct (H 0%nat (set_status "stopped" Examples.started_row))
       as (row' & Hrow & Hterm);
     [ vm_compute; reflexivity
     | reflexivity
     | vm_compute in Hrow; injection Hrow as <-; discriminate ]).
Qed.

(** C5, amended.  A stop request that succeeds leaves the row with status
    [stopped] and without container id, and from then on no request
    (launch, listing, pause, resume, stop, status or cleanup) changes that
    row: a
    listing skips it and the control calls are refused. *)
Theorem explicit_stop_is_sticky (from_env : bool) (d : DCM.docker)
    (meeting_id current_user msg : string) (a a1 : app)
    (ops : list route_op) :
  stop_meeting from_env d meeting_id current_user a = (Return msg, a1) ->
  exists i row,
    db a1 !! i = Some row
    /\ id row = meeting_id
    /\ user_id row = current_user
    /\ status row = "stopped"
    /\ container_id row = None
    /\ db (route_run ops a1) !! i = Some row.
Proof.
  intros E.
  apply stop_meeting_success in E as (meeting & Hf & Hdb & _).
  destruct (update_first_at (owned meeting_id current_user) mark_stopped
              (db a) meeting Hf) as (i & _ & Hi).
  rewrite <- Hdb in Hi.
  apply first_Some_owned in Hf as [Ho _].
  unfold owned in Ho. apply andb_true_iff in Ho as [Hid Hu].
  apply String.eqb_eq in Hid, Hu.
  exists i, (mark_stopped meeting). repeat split; try done.
  by apply frozen_run.
Qed.

Lemma explicit_stop_is_sticky_witness :
  exists i row,
    db Examples.app_stopped !! i = Some row
    /\ status row = "stopped"
    /\ db (route_run Examples.after_the_stop Examples.app_stopped) !! i
       = Some row.
Proof.
  destruct (explicit_stop_is_sticky true (Examples.engine_reporting "running")
              "uuid-1" "user1" "Meeting stopped successfully"
              Examples.app_started Examples.app_stopped
              Examples.after_the_stop)
    as (i & row & H1 & _ & _ & H2 & _ & H3).
  - vm_compute. reflexivity.
  - exists i, row. auto.
Defined.

End Handlers.

(** ** The job of the cluster variant *)

Module JobSpec.

Import Jobs Claims.

Lemma local_env_names_eq :
  local_env_names = ["UUID"; "MEETING_ID"; "USER_ID"; "DURATION";
                     "DYNAMIC_PORT"].
Proof. reflexivity. Qed.

(** C10, as worded, fails: the worker of the job has no [USER_ID]
    variable, which the local launch passes. *)
Lemma job_env_lacks_owner :
  ~ job_env_as_worded
      (_build_job_spec "abc-def-ghi" "0f8fad5b-d9cb-469f-a165-70867728950e"
         1 "VIDEO" "registry.example/quikscribe-google-bot:latest").
Proof.
  intros H.
  specialize (H _ _ eq_refl "USER_ID").
  assert (Hin : "USER_ID" ∈ local_env_names).
  { rewrite local_env_names_eq. apply list_elem_of_In. simpl. tauto. }
  apply H, list_elem_of_In in Hin. simpl in Hin.
  repeat (destruct Hin as [Hin|Hin]; [discriminate|]). exact Hin.
Qed.

(** C10, amended.  The pod template of the job has exactly two containers,
    the worker and the [selenium] sidecar; the sidecar carries a startup and
    a readiness probe, the worker's command sleeps 12 seconds before it
    starts the bot, and both containers have resource requests and limits.
    The worker's environment has the variables [MEETING_ID], [UUID],
    [RECORD_TYPE], [DURATION], [DYNAMIC_PORT], [DISPLAY] and
    [SELENIUM_URL]: the meeting id and the duration are those of the
    request, [DYNAMIC_PORT] is always 3000, and there is no [USER_ID]. *)
Theorem build_job_spec_shape (meeting_id uuid_val : string) (duration_min : Z)
    (record_type image : string) :
  exists worker sidecar,
    pod_containers
      (_build_job_spec meeting_id uuid_val duration_min record_type image)
    = [worker; sidecar]
    /\ V1Container.name worker = "worker"
    /\ V1Container.image worker = image
    /\ V1Container.name sidecar = "selenium"
    /\ is_Some (V1Container.startup_probe sidecar)
    /\ is_Some (V1Container.readiness_probe sidecar)
    /\ V1Container.command worker
       = Some ["sh"; "-lc"; "sleep 12; exec bun run index.ts"]
    /\ has_resources worker = true
    /\ has_resources sidecar = true
    /\ env_names worker
       = ["MEETING_ID"; "UUID"; "RECORD_TYPE"; "DURATION"; "DYNAMIC_PORT";
          "DISPLAY"; "SELENIUM_URL"]
    /\ env_value "MEETING_ID" worker = Some meeting_id
    /\ env_value "UUID" worker = Some uuid_val
    /\ env_value "DURATION" worker = Some (str duration_min)
    /\ env_value "DYNAMIC_PORT" worker = Some "3000"
    /\ env_value "USER_ID" worker = None.
Proof.
  eexists _, _. split; [reflexivity|].
  repeat split; try reflexivity; by eexists.
Qed.

End JobSpec.

(** ** More on the manager: allocation, launch and stop *)

Module Manager.

Import DockerContainerManager Traces Lifecycle.

(** X1.  [get_available_port] raises exactly when every port of the range
    is either claimed or not free on the host (the probe connected, or
    raised); what it raises is the "no available ports" exception and the
    manager is left as it was. *)
Theorem get_available_port_fails_iff (connect_ex : Z -> option Z)
    (rnd : nat) (m : manager) :
  (forall p, in_range p ->
             p ∈ used_ports m \/ probe_free connect_ex p = false)
  <-> get_available_port connect_ex rnd m
      = (Raise (NoAvailablePorts port_range), m).
Proof.
  unfold get_available_port. split.
  - intros Hall.
    destruct (available_ports connect_ex (used_ports m)) as [|q l] eqn:E;
      [done|].
    assert (Hq : In q (available_ports connect_ex (used_ports m)))
      by (rewrite E; by left).
    apply PortAllocator.available_ports_spec in Hq as (Hr & Hfree & Hprobe).
    destruct (Hall q Hr) as [Hu|Hp]; [contradiction | congruence].
  - destruct (available_ports connect_ex (used_ports m)) as [|q l] eqn:E;
      [|discriminate].
    intros _ p Hr.
    destruct (decide (p ∈ used_ports m)) as [|Hfree]; [by left|]. right.
    destruct (probe_free connect_ex p) eqn:Hprobe; [|done].
    assert (Hin : In p (available_ports connect_ex (used_ports m)))
      by (by apply PortAllocator.available_ports_spec).
    rewrite E in Hin. destruct Hin.
Qed.

(** The two ways [start_meeting_bot] ends. *)
Lemma start_meeting_bot_cases connect_ex rnd uuid4 time_name time_started d
    meeting_url user_id duration m :
  let r := start_meeting_bot connect_ex rnd uuid4 time_name time_started d
             meeting_url user_id duration m in
  (exists e, fst r = Raise e
             /\ used_ports (snd r) = used_ports m
             /\ container_map (snd r) = container_map m)
  \/ (exists p cid,
        let container_name :=
          "meeting-bot-" ++ user_id ++ "-" ++ str time_name ++ "-" ++ str p in
        let info :=
          {| container_id := cid;
             container_name := container_name;
             port := p;
             meeting_uuid := uuid4;
             user_id := user_id;
             meeting_url := meeting_url;
             status := "starting";
             started_at := time_started;
             docker_status := None;
             running := None |} in
        In p (available_ports connect_ex (used_ports m))
        /\ containers_run d
             (launch_request uuid4 meeting_url user_id duration p
                container_name) = Ok cid
        /\ fst r = Ok info
        /\ used_ports (snd r) = {[p]} ∪ used_ports m
        /\ container_map (snd r) = <[cid := info]> (container_map m)).
Proof.
  unfold start_meeting_bot.
  destruct (get_available_port connect_ex rnd m) as [[p|e0] m1] eqn:Ealloc.
  - apply PortAllocator.get_available_port_ok in Ealloc as [Hin ->].
    pose proof (proj1 (PortAllocator.available_ports_spec _ _ _) Hin)
      as (_ & Hfree & _).
    match goal with
    | |- context [containers_run d ?r] =>
        destruct (containers_run d r) as [cid|e1] eqn:Erun
    end.
    + right. exists p, cid. simpl. eauto 10.
    + left. exists e1. simpl. split; [done|].
      split; [by apply Launch.discard_fresh | done].
  - apply PortAllocator.get_available_port_raise in Ealloc as [-> ->].
    left. eexists. simpl. eauto.
Qed.

(** X2.  A launch that succeeds has claimed a port of the range that was
    free, has asked the engine for a container with that port in its
    environment, in its port mapping and in its name, and has filed the
    worker under the container's id with status [starting]; nothing else
    of the manager has changed. *)
Theorem start_meeting_bot_success (connect_ex : Z -> option Z) (rnd : nat)
    (uuid4 : string) (time_name time_started : Z) (d : docker)
    (meeting_url user_id : string) (duration : Z) (m m' : manager)
    (info : container_info) :
  start_meeting_bot connect_ex rnd uuid4 time_name time_started d
    meeting_url user_id duration m = (Ok info, m') ->
  in_range (port info)
  /\ (port info ∉ used_ports m)
  /\ used_ports m' = {[port info]} ∪ used_ports m
  /\ container_map m' = <[container_id info := info]> (container_map m)
  /\ status info = "starting"
  /\ DockerContainerManager.user_id info = user_id
  /\ DockerContainerManager.meeting_url info = meeting_url
  /\ meeting_uuid info = uuid4
  /\ exists request,
       containers_run d request = Ok (container_id info)
       /\ name request = container_name info
       /\ container_name info
          = "meeting-bot-" ++ user_id ++ "-" ++ str time_name ++ "-"
              ++ str (port info)
       /\ request_env "DYNAMIC_PORT" request = Some (str (port info))
       /\ request_env "USER_ID" request = Some user_id
       /\ request_env "MEETING_ID" request = Some meeting_url
       /\ request_env "DURATION" request = Some (str duration)
       /\ ports request = [(str (port info) ++ "/tcp", port info)]
       /\ remove request = true.
Proof.
  intros E.
  pose proof (start_meeting_bot_cases connect_ex rnd uuid4 time_name
                time_started d meeting_url user_id duration m) as H.
  rewrite E in H. simpl in H.
  destruct H as [(e & He & _) | (p & cid & Hin & Hrun & Hinfo & Hu & Hm)];
    [discriminate|].
  injection Hinfo as ->. simpl.
  apply PortAllocator.available_ports_spec in Hin as (Hr & Hfree & _).
  repeat (split; [done|]).
  eexists. split; [exact Hrun|]. simpl. repeat split; reflexivity.
Qed.

Lemma start_meeting_bot_success_witness :
  port Examples.one_worker_info = 3001
  /\ used_ports Examples.one_worker = {[3001]} ∪ used_ports init.
Proof.
  assert (E : start_meeting_bot Examples.quiet_host 0 "uuid-1" 1700000000
                1700000000 (Examples.engine_reporting "running")
                "https://meet.google.com/abc-def-ghi" "user1" 30 init
              = (Ok Examples.one_worker_info, Examples.one_worker))
    by (vm_compute; reflexivity).
  destruct (start_meeting_bot_success _ _ _ _ _ _ _ _ _ _ _ _ E)
    as (_ & _ & Hu & _).
  split; [reflexivity | exact Hu].
Defined.

(** X3.  [stop_meeting_bot] returns [True] exactly when the worker is
    tracked, the engine knows the container and stops it.  It then has
    released the worker's port and dropped the worker, and a second stop of
    the same id returns [False] whatever the engine shows; when it returns
    [False] the manager is as it was. *)
Theorem stop_meeting_bot_effect (d : docker) (cid : string) (m : manager) :
  let r := stop_meeting_bot d cid m in
  (fst r = true <->
   is_Some (container_map m !! cid)
   /\ is_Some (containers_get d cid)
   /\ container_stop d cid = true)
  /\ (fst r = false -> snd r = m)
  /\ (fst r = true ->
      (exists info,
         container_map m !! cid = Some info
         /\ used_ports (snd r) = used_ports m ∖ {[port info]}
         /\ container_map (snd r) = delete cid (container_map m))
      /\ forall d', stop_meeting_bot d' cid (snd r) = (false, snd r)).
Proof.
  unfold stop_meeting_bot.
  destruct (container_map m !! cid) as [info|] eqn:Hc; simpl.
  - destruct (containers_get d cid) as [st|] eqn:Hg; simpl.
    + destruct (container_stop d cid) eqn:Hs; simpl.
      * split; [split; [eauto | done]|]. split; [done|]. intros _.
        split; [eauto|]. intros d'. simpl. by rewrite lookup_delete_eq.
      * split; [split; [done | intros (_ & _ & ?); done]|]. by split.
    + split; [split; [done | intros (_ & [? ?] & _); done]|]. by split.
  - split; [split; [done | intros ([? ?] & _); done]|]. by split.
Qed.

(** The two ways [stop_meeting_bot] ends. *)
Lemma stop_meeting_bot_cases d cid m :
  snd (stop_meeting_bot d cid m) = m
  \/ exists info,
       container_map m !! cid = Some info
       /\ used_ports (snd (stop_meeting_bot d cid m))
          = used_ports m ∖ {[port info]}
       /\ container_map (snd (stop_meeting_bot d cid m))
          = delete cid (container_map m).
Proof.
  unfold stop_meeting_bot.
  destruct (container_map m !! cid) as [info|] eqn:Hc; [|by left].
  destruct (containers_get d cid); [|by left].
  destruct (container_stop d cid); [|by left].
  right. by exists info.
Qed.

End Manager.

(** ** What the manager keeps over every run *)

Module Invariant.

Import DockerContainerManager Traces Lifecycle.

Lemma manager_inv_init : manager_inv init.
Proof.
  split; [|split]; simpl.
  - intros p Hp. by apply not_elem_of_empty in Hp.
  - intros cid info H. by rewrite lookup_empty in H.
  - intros c1 c2 i1 i2 H. by rewrite lookup_empty in H.
Qed.

Lemma observe_keeps container_status info :
  port (observe container_status info) = port info
  /\ container_id (observe container_status info) = container_id info.
Proof. done. Qed.

Lemma reconciled_keeps d cid info info' :
  reconciled d cid info = Some info' ->
  port info' = port info /\ container_id info' = container_id info.
Proof.
  unfold reconciled. destruct (containers_get d cid); [|done].
  by intros [= <-].
Qed.

(** An invariant is kept under every change that claims no port, forgets
    none of a worker it keeps, and keeps or drops each worker with its
    port and id. *)
Lemma manager_inv_shrink m m' :
  manager_inv m ->
  (forall p, p ∈ used_ports m' -> p ∈ used_ports m) ->
  (forall cid info', container_map m' !! cid = Some info' ->
     exists info, container_map m !! cid = Some info
                  /\ port info' = port info
                  /\ container_id info' = container_id info
                  /\ port info ∈ used_ports m') ->
  manager_inv m'.
Proof.
  intros (Hr & Ht & Hd) Hu Hm. split; [|split].
  - intros p Hp. by apply Hr, Hu.
  - intros cid info' Hc.
    destruct (Hm cid info' Hc) as (info & Hc0 & Hp & Hi & Hin).
    destruct (Ht cid info Hc0) as [_ Hid]. split; congruence.
  - intros c1 c2 i1 i2 H1 H2 Heq.
    destruct (Hm c1 i1 H1) as (j1 & Hj1 & Hp1 & _).
    destruct (Hm c2 i2 H2) as (j2 & Hj2 & Hp2 & _).
    apply (Hd c1 c2 j1 j2); congruence.
Qed.

Lemma bot_step_inv m o : manager_inv m -> manager_inv (bot_step m o).
Proof.
  intros Hinv.
  destruct o as [connect_ex rnd uuid4 t1 t2 d url user duration
                | d cid | d cid | d | d]; simpl.
  - pose proof (Manager.start_meeting_bot_cases connect_ex rnd uuid4 t1 t2 d
                  url user duration m) as H. simpl in H.
    destruct H as [(e & _ & Hu & Hm) | (p & cid & Hin & _ & _ & Hu & Hm)].
    + apply (manager_inv_shrink m); [done | by rewrite Hu |].
      intros c i'. rewrite Hm, Hu. intros Hc. exists i'.
      destruct Hinv as (_ & Ht & _). destruct (Ht c i' Hc). done.
    + destruct Hinv as (Hr & Ht & Hd).
      apply PortAllocator.available_ports_spec in Hin as (Hpr & Hfree & _).
      split; [|split].
      * intros q. rewrite Hu, elem_of_union, elem_of_singleton.
        intros [->|Hq]; auto.
      * intros c i. rewrite Hm, Hu, elem_of_union, elem_of_singleton.
        intros [[<- <-]|[Hne Hc]]%lookup_insert_Some; simpl; [by auto|].
        destruct (Ht c i Hc). auto.
      * intros c1 c2 i1 i2. rewrite !Hm.
        intros [[<- <-]|[Hn1 H1]]%lookup_insert_Some
               [[<- <-]|[Hn2 H2]]%lookup_insert_Some; simpl; [done|..].
        -- intros ->. destruct (Ht c2 i2 H2). contradiction.
        -- intros <-. destruct (Ht c1 i1 H1). contradiction.
        -- by apply Hd.
  - pose proof (Manager.stop_meeting_bot_cases d cid m) as [-> | H]; [done|].
    destruct H as (info & Hc & Hu & Hm).
    destruct Hinv as (Hr & Ht & Hd).
    apply (manager_inv_shrink m); [done | |].
    + intros p. rewrite Hu. by intros [? _]%elem_of_difference.
    + intros c i'. rewrite Hm, Hu.
      intros [Hne Hci]%lookup_delete_Some. exists i'.
      destruct (Ht c i' Hci) as [Hin _]. repeat split; [done|].
      apply elem_of_difference. split; [done|].
      rewrite elem_of_singleton. intros Heq.
      apply Hne. symmetry. by apply (Hd c cid i' info).
  - rewrite Reconcile.get_meeting_bot_status_spec.
    destruct (container_map m !! cid ≫= reconciled d cid) as [info'|] eqn:E;
      simpl; [|done].
    destruct (container_map m !! cid) as [info|] eqn:Hc; [|done].
    simpl in E. apply reconciled_keeps in E as [Hp Hi].
    destruct Hinv as (Hr & Ht & Hd).
    apply (manager_inv_shrink m); [done | done |]. simpl.
    intros c i'. intros [[<- <-]|[Hne Hci]]%lookup_insert_Some.
    + exists info. destruct (Ht cid info Hc). done.
    + exists i'. destruct (Ht c i' Hci). done.
  - destruct (Reconcile.get_all_meeting_bots_spec d m) as [Hu Hm].
    destruct Hinv as (Hr & Ht & Hd).
    apply (manager_inv_shrink m); [done | by rewrite Hu |].
    intros c i'. rewrite Hm, Hu.
    destruct (container_map m !! c) as [info|] eqn:Hc; [|done]. simpl.
    intros [Hp Hi]%reconciled_keeps. exists info.
    destruct (Ht c info Hc). done.
  - destruct (Cleanup.cleanup_dead_containers_unfold d m)
      as (used & -> & Hu).
    destruct Hinv as (Hr & Ht & Hd).
    apply (manager_inv_shrink m); [done | |]; cbn [snd used_ports container_map].
    + intros p Hp. by apply Hu in Hp as [? _].
    + intros c i'. rewrite Cleanup.cleanup_remove_lookup.
      destruct (decide (c ∈ _)) as [|Hnot]; [done|]. intros Hci.
      exists i'. destruct (Ht c i' Hci) as [Hin _]. repeat split; [done|].
      apply Hu. split; [done|]. intros c2 i2 Hc2 Hdead Heq.
      apply Hnot. assert (c2 = c) as <- by (by apply (Hd c2 c i2 i')).
      apply Cleanup.elem_of_dead_list. split; [by eexists | done].
Qed.

(** X4.  Whatever launches, stops, status checks, listings and cleanups a
    fresh manager has served, with whatever the engine and the host showed:
    its claimed ports are ports of 3001..3999, every tracked worker is
    filed under its own container id and has its port claimed, and no two
    tracked workers have the same port. *)
Theorem manager_inv_reachable (ops : list bot_op) :
  manager_inv (bot_run ops init).
Proof.
  assert (H : forall m, manager_inv m -> manager_inv (bot_run ops m)).
  { unfold bot_run. induction ops as [|o ops IH]; intros m Hm; [done|].
    simpl. by apply IH, bot_step_inv. }
  apply H, manager_inv_init.
Qed.

(** No more workers are tracked than ports are claimed. *)
Lemma tracked_le_claimed m :
  manager_inv m -> (size (container_map m) <= size (used_ports m))%nat.
Proof.
  intros (_ & Ht & Hd).
  set (ports := (fun kv : string * container_info => port (snd kv))
                  <$> map_to_list (container_map m)).
  assert (Hnd : NoDup ports).
  { apply NoDup_fmap_2_strong; [|apply NoDup_map_to_list].
    intros [c1 i1] [c2 i2] H1 H2 Heq. simpl in Heq.
    apply elem_of_map_to_list in H1, H2.
    assert (c1 = c2) as -> by (by apply (Hd c1 c2 i1 i2)).
    congruence. }
  rewrite <- length_map_to_list.
  replace (length (map_to_list (container_map m))) with (length ports)
    by apply length_fmap.
  rewrite <- (size_list_to_set (C:=gset Z) ports Hnd).
  apply subseteq_size. intros p Hp.
  apply elem_of_list_to_set, list_elem_of_fmap in Hp as [[c i] [-> Hin]].
  apply elem_of_map_to_list in Hin. by destruct (Ht c i Hin).
Qed.

(** X5.  The port statistics of a manager, after whatever it has served:
    the total is the 999 ports of the range, the ports in use and the ports
    available add up to it, neither is negative, and the number of active
    containers is at most the number of ports in use. *)
Theorem port_usage_stats_bounds (ops : list bot_op) :
  let stats := get_port_usage_stats (bot_run ops init) in
  total_ports_available stats = 999
  /\ ports_in_use stats + ports_available stats = 999
  /\ 0 <= ports_in_use stats
  /\ 0 <= ports_available stats
  /\ 0 <= active_containers stats <= ports_in_use stats.
Proof.
  assert (H : forall m, manager_inv m -> manager_inv (bot_run ops m)).
  { unfold bot_run. induction ops as [|o ops IH]; intros m Hm; [done|].
    simpl. by apply IH, bot_step_inv. }
  pose proof (H init manager_inv_init) as Hinv. clear H.
  pose proof (tracked_le_claimed _ Hinv) as Hle.
  destruct Hinv as (Hr & _).
  pose proof (PortAllocator.allocator_inv_bound _ Hr) as Hb.
  rewrite PortAllocator.range_size_999 in Hb.
  unfold get_port_usage_stats, port_range. simpl. lia.
Qed.

End Invariant.

(** ** More on listing and cleanup *)

Module Listing.

Import DockerContainerManager Traces Lifecycle.

Lemma omap_agree {A B} (f g : A -> option B) (l : list A) :
  (forall x, x ∈ l -> f x = g x) -> omap f l = omap g l.
Proof.
  induction l as [|x l IH]; intros H; [done|]. csimpl.
  rewrite (H x) by (apply elem_of_cons; by left).
  rewrite IH; [done|]. intros y Hy. apply H, elem_of_cons. by right.
Qed.

(** The list the loop of [get_all_meeting_bots] builds. *)
Lemma get_all_fold_fst d l :
  NoDup l -> forall acc m,
  fst (fold_left (get_all_step d) l (acc, m))
  = (acc ++ omap (fun cid => container_map m !! cid ≫= reconciled d cid) l)%list.
Proof.
  induction 1 as [|cid l Hnotin Hnd IH]; intros acc m; cbn [fold_left].
  - by rewrite app_nil_r.
  - pose proof (Reconcile.get_all_step_spec d acc m cid) as [_ Hm1].
    assert (Hacc : fst (get_all_step d (acc, m) cid)
                   = (acc ++ match container_map m !! cid ≫= reconciled d cid
                             with Some i => [i] | None => [] end)%list).
    { unfold get_all_step. rewrite Reconcile.get_meeting_bot_status_spec.
      destruct (container_map m !! cid ≫= reconciled d cid); simpl;
        [done | by rewrite app_nil_r]. }
    destruct (get_all_step d (acc, m) cid) as [acc1 m1].
    cbn [fst snd] in *. rewrite IH, Hacc. csimpl.
    rewrite (omap_agree
               (fun c => container_map m1 !! c ≫= reconciled d c)
               (fun c => container_map m !! c ≫= reconciled d c)).
    + by destruct (container_map m !! cid ≫= reconciled d cid);
        rewrite <- app_assoc.
    + intros c Hc. rewrite Hm1.
      destruct (decide (c = cid)) as [->|]; [contradiction | done].
Qed.

Lemma NoDup_omap_keyed {A} (g : string -> option (string * A)) l :
  (forall k x, g k = Some x -> fst x = k) ->
  NoDup l -> NoDup (omap g l).
Proof.
  intros Hg. induction 1 as [|k l Hk Hnd IH]; csimpl; [constructor|].
  destruct (g k) as [x|] eqn:E; [|done].
  constructor; [|done]. intros Hin.
  apply list_elem_of_omap in Hin as (k' & Hk' & E').
  apply Hg in E, E'. congruence.
Qed.

(** X6.  The list [get_all_meeting_bots] returns holds exactly the workers
    it leaves in the tracking map, each once: it is a rearrangement of the
    map's values, so its length is the number of workers still tracked. *)
Theorem get_all_meeting_bots_returns (d : docker) (m : manager) :
  let r := get_all_meeting_bots d m in
  fst r ≡ₚ (map_to_list (container_map (snd r))).*2
  /\ length (fst r) = size (container_map (snd r)).
Proof.
  intros r.
  assert (Hperm : fst r ≡ₚ (map_to_list (container_map (snd r))).*2).
  { destruct (Reconcile.get_all_meeting_bots_spec d m) as [_ Hm].
    fold r in Hm. subst r. unfold get_all_meeting_bots at 1.
    rewrite get_all_fold_fst by apply NoDup_fst_map_to_list.
    rewrite app_nil_l.
    set (f := fun cid => container_map m !! cid ≫= reconciled d cid).
    set (g := fun cid => (fun i : container_info => (cid, i)) <$> f cid).
    assert (Hfg : forall l, omap f l = (omap g l).*2).
    { induction l as [|k l IH]; [done|]. csimpl. unfold g at 1.
      destruct (f k); csimpl; by rewrite IH. }
    rewrite Hfg. apply fmap_Permutation.
    apply NoDup_Permutation.
    - apply NoDup_omap_keyed; [|apply NoDup_fst_map_to_list].
      intros k [c i]. unfold g. destruct (f k); [|done]. by intros [= <- _].
    - apply NoDup_map_to_list.
    - intros [c i]. rewrite list_elem_of_omap, elem_of_map_to_list, Hm.
      fold (f c). split.
      + intros (k & _ & Hk). unfold g in Hk.
        destruct (f k) eqn:E; [|done]. by injection Hk as -> ->.
      + intros Hfc. exists c. split; [|unfold g; by rewrite Hfc].
        apply Reconcile.elem_of_keys. unfold f in Hfc.
        destruct (container_map m !! c); [by eexists | done]. }
  split; [exact Hperm|].
  rewrite Hperm, length_fmap. apply length_map_to_list.
Qed.

Lemma status_of_docker_twice container_status old :
  status_of_docker container_status
    (status_of_docker container_status old)
  = status_of_docker container_status old.
Proof.
  unfold status_of_docker.
  destruct (String.eqb container_status "running"); [done|].
  destruct (String.eqb container_status "exited"); [done|].
  by destruct (String.eqb container_status "created").
Qed.

Lemma manager_eq m1 m2 :
  used_ports m1 = used_ports m2 ->
  container_map m1 = container_map m2 -> m1 = m2.
Proof. destruct m1, m2. simpl. by intros -> ->. Qed.

(** X7.  Listing twice while the engine shows the same gives the manager
    the first listing gave: the second one drops nobody and rewrites every
    entry with what it already holds. *)
Theorem get_all_meeting_bots_twice (d : docker) (m : manager) :
  snd (get_all_meeting_bots d (snd (get_all_meeting_bots d m)))
  = snd (get_all_meeting_bots d m).
Proof.
  destruct (Reconcile.get_all_meeting_bots_spec d m) as [Hu Hm].
  destruct (Reconcile.get_all_meeting_bots_spec d
              (snd (get_all_meeting_bots d m))) as [Hu2 Hm2].
  apply manager_eq; [by rewrite Hu2|].
  apply map_eq. intros cid. rewrite Hm2, Hm.
  destruct (container_map m !! cid) as [info|]; [|done]. simpl.
  unfold reconciled. destruct (containers_get d cid) as [st|]; [|done].
  simpl. unfold observe. simpl. by rewrite status_of_docker_twice.
Qed.

(** X8.  A cleanup repeated while the engine shows the same finds nothing
    left to do: it returns 0 and leaves the manager as the first one left
    it. *)
Theorem cleanup_dead_containers_twice (d : docker) (m : manager) :
  cleanup_dead_containers d (snd (cleanup_dead_containers d m))
  = (0%nat, snd (cleanup_dead_containers d m)).
Proof.
  destruct (Cleanup.cleanup_dead_containers_unfold d m) as (used & -> & Hu).
  cbn [snd].
  set (m1 := {| used_ports := used;
                container_map := cleanup_remove _ (container_map m) |}).
  destruct (Cleanup.cleanup_dead_containers_unfold d m1)
    as (used2 & -> & Hu2).
  assert (Halive : forall c i,
            container_map m1 !! c = Some i -> dead d c = false).
  { intros c i. unfold m1. cbn [container_map].
    rewrite Cleanup.cleanup_remove_lookup.
    destruct (decide (c ∈ _)) as [|Hnot]; [done|]. intros Hc.
    destruct (dead d c) eqn:Hd; [|done]. destruct Hnot.
    apply Cleanup.elem_of_dead_list. split; [by eexists | done]. }
  assert (Hnil : (filter (fun kv : string * container_info =>
                            dead d (fst kv) = true)
                         (map_to_list (container_map m1))).*1 = []).
  { apply elem_of_nil_inv. intros c Hc.
    apply Cleanup.elem_of_dead_list in Hc as [[i Hi] Hd].
    apply Halive in Hi. congruence. }
  rewrite Hnil. simpl. f_equal.
  apply manager_eq; [|done]. simpl.
  apply set_eq. intros p. rewrite Hu2. split; [by intros [? _]|].
  intros Hp. split; [done|]. intros c i Hc Hd.
  apply Halive in Hc. congruence.
Qed.

End Listing.

(** ** The rows of the table over every run of requests *)

Module Tenancy.

Import Routes Traces Lifecycle.

Lemma owned_user meeting_id current_user meeting :
  owned meeting_id current_user meeting = true ->
  id meeting = meeting_id /\ user_id meeting = current_user.
Proof.
  unfold owned. intros [H1 H2]%andb_true_iff.
  by apply String.eqb_eq in H1, H2.
Qed.

(** The write of a handler leaves the row at an index as it is, or puts
    the written version of that very row there. *)
Lemma update_first_lookup P f rows i r :
  rows !! i = Some r ->
  update_first P f rows !! i = Some r
  \/ (first P rows = Some r /\ update_first P f rows !! i = Some (f r)).
Proof.
  unfold first. revert i.
  induction rows as [|x rows IH]; intros i Hi; simpl in *; [done|].
  destruct (P x) eqn:E.
  - destruct i as [|i]; simpl in *; [|by left].
    injection Hi as ->. by right.
  - destruct i as [|i]; simpl in *; [by left | by apply IH].
Qed.

(** The listing leaves the rows of other users as they are. *)
Lemma refresh_rows_other from_env d current_user rows :
  forall g i r,
    rows !! i = Some r ->
    user_id r <> current_user ->
    snd (fst (refresh_rows from_env d current_user rows g)) !! i = Some r.
Proof.
  induction rows as [|meeting rest IH]; intros g i r Hi Hr; [done|].
  cbn [refresh_rows].
  assert (Hskip : forall g0,
    snd (fst (let '(e, rest', g') :=
                refresh_rows from_env d current_user rest g0 in
              (e, meeting :: rest', g'))) !! i = Some r).
  { intros g0. specialize (IH g0).
    destruct (refresh_rows from_env d current_user rest g0) as [[e rest'] g'].
    simpl in *. destruct i as [|i]; simpl in *; [done|]. by apply IH. }
  destruct (String.eqb (user_id meeting) current_user) eqn:Hu; simpl;
    [|apply Hskip].
  apply String.eqb_eq in Hu.
  destruct (negb (truthy (container_id meeting))); [apply Hskip|].
  destruct (container_id meeting) as [cid|]; [|apply Hskip].
  destruct (get_docker_manager from_env g) as [[m|e] g1]; [|done].
  assert (Hi' : i <> 0%nat).
  { intros ->. simpl in Hi. injection Hi as <-. contradiction. }
  destruct i as [|i]; [done|]. simpl in Hi.
  destruct (DCM.get_meeting_bot_status d cid m) as [[info|] m'].
  - specialize (IH (Some m') i r Hi Hr).
    destruct (refresh_rows from_env d current_user rest (Some m'))
      as [[e rest'] g']. exact IH.
  - specialize (IH (Some m') i r Hi Hr).
    destruct (refresh_rows from_env d current_user rest (Some m'))
      as [[e rest'] g']. exact IH.
Qed.

Lemma other_user_step a o i r :
  db a !! i = Some r ->
  op_user o <> Some (user_id r) ->
  db (route_step a o) !! i = Some r.
Proof.
  intros Hi Hr.
  assert (Hcontrol : forall mid user f,
            Some user <> Some (user_id r) ->
            update_first (owned mid user) f (db a) !! i = Some r).
  { intros mid user f Hne.
    destruct (update_first_lookup (owned mid user) f (db a) i r Hi)
      as [H|[Hf _]]; [done|].
    apply Handlers.first_Some_owned in Hf as [Ho _].
    apply owned_user in Ho as [_ Hu]. congruence. }
  destruct o as [from_env connect_ex rnd uuid4 t1 t2 d url duration user
                | from_env d user | post mid user | post mid user
                | from_env d mid user | from_env d | from_env d]; simpl in *.
  - unfold start_meeting_bot.
    destruct (get_docker_manager from_env (docker_manager a))
      as [[m|[c dt]] g]; [|done].
    destruct (DCM.start_meeting_bot _ _ _ _ _ _ _ _ _ _) as [[info|e] m'];
      [|done].
    simpl. by apply lookup_app_l_Some.
  - unfold get_user_meetings.
    assert (Hne : user_id r <> user) by congruence.
    pose proof (refresh_rows_other from_env d user (db a)
                  (docker_manager a) i r Hi Hne) as H.
    destruct (refresh_rows from_env d user (db a) (docker_manager a))
      as [[e rows] g]. simpl in H.
    by destruct e as [[c dt]|].
  - unfold pause_meeting.
    destruct (first (owned mid user) (db a)) as [meeting|]; [|done].
    destruct (truthy (container_id meeting)); [|done].
    destruct (post _) as [code|]; [|done].
    destruct (Z.eqb code 200); [|done]. simpl. by apply Hcontrol.
  - unfold resume_meeting.
    destruct (first (owned mid user) (db a)) as [meeting|]; [|done].
    destruct (truthy (container_id meeting)); [|done].
    destruct (post _) as [code|]; [|done].
    destruct (Z.eqb code 200); [|done]. simpl. by apply Hcontrol.
  - unfold stop_meeting.
    destruct (first (owned mid user) (db a)) as [meeting|]; [|done].
    destruct (container_id meeting) as [cid|]; [|done].
    destruct (truthy (Some cid)); [|done].
    destruct (get_docker_manager from_env (docker_manager a))
      as [[m|[c dt]] g]; [|done].
    destruct (DCM.stop_meeting_bot d cid m) as [[|] m']; [|done]. simpl.
    by apply Hcontrol.
  - unfold get_meeting_bots_status.
    destruct (get_docker_manager from_env (docker_manager a))
      as [[m|[c dt]] g]; [|done].
    by destruct (DCM.get_all_meeting_bots d m).
  - unfold cleanup_meeting_bots.
    destruct (get_docker_manager from_env (docker_manager a))
      as [[m|[c dt]] g]; [|done].
    by destruct (DCM.cleanup_dead_containers d m).
Qed.

(** X9.  No run of requests changes a row of a user on whose behalf none
    of them is made: launches, listings, pauses, resumes and stops of other
    callers, and the two admin requests, leave the row as it is, whatever
    meeting id they name. *)
Theorem other_users_rows_untouched (ops : list route_op) (a : app)
    (i : nat) (r : User_google_meeting_data) :
  db a !! i = Some r ->
  Forall (fun o => op_user o <> Some (user_id r)) ops ->
  db (route_run ops a) !! i = Some r.
Proof.
  unfold route_run. revert a.
  induction ops as [|o ops IH]; intros a Hi Hops; [done|].
  apply Forall_cons in Hops as [Ho Hops]. simpl.
  apply IH; [by apply other_user_step | done].
Qed.

Lemma other_users_rows_untouched_witness :
  db (route_run Examples.requests_of_user2 Examples.app_started) !! 0%nat
  = Some Examples.started_row.
Proof.
  apply (other_users_rows_untouched Examples.requests_of_user2
           Examples.app_started 0 Examples.started_row).
  - vm_compute. reflexivity.
  - unfold Examples.requests_of_user2.
    repeat (apply Forall_cons; split; [simpl; discriminate|]).
    apply Forall_nil_2.
Defined.







End Tenancy.

(** ** The handlers and the manager together *)

Module Service.

Import Routes Traces Lifecycle.

Lemma get_docker_manager_cases from_env g :
  (exists m, get_docker_manager from_env g = (Ok m, Some m)
             /\ (g = Some m \/ (g = None /\ from_env = true /\ m = DCM.init)))
  \/ (get_docker_manager from_env g
      = (Raise (503, "Docker is not available in backend container"), None)
      /\ g = None /\ from_env = false).
Proof.
  unfold get_docker_manager. destruct g as [m|].
  - left. exists m. auto.
  - destruct from_env; [left; exists DCM.init; auto | right; auto].
Qed.

(** X11.  When the launch request succeeds, response, row and manager
    agree: the manager tracks the new container on a claimed port of the
    range with status [starting], the row appended to the table (and no
    other row is touched) carries that container id and that port under the
    caller's name, and the response repeats them. *)
Theorem start_route_success (from_env : bool) (connect_ex : Z -> option Z)
    (rnd : nat) (uuid4 : string) (time_name time_started : Z)
    (d : DCM.docker) (meeting_url : string) (duration : Z)
    (current_user : string) (a a' : app) (resp : MeetingResponse) :
  start_meeting_bot from_env connect_ex rnd uuid4 time_name time_started d
    meeting_url duration current_user a = (Return resp, a') ->
  exists m' info,
    docker_manager a' = Some m'
    /\ DCM.container_map m' !! DCM.container_id info = Some info
    /\ DCM.port info ∈ DCM.used_ports m'
    /\ in_range (DCM.port info)
    /\ DCM.status info = "starting"
    /\ DCM.user_id info = current_user
    /\ db a'
       = List.app (db a)
           [ {| id := uuid4;
                  user_id := current_user;
                  meeting_id := uuid4;
                  meeting_url := meeting_url;
                  meeting_duration := Some duration;
                  container_id := Some (DCM.container_id info);
                  port := Some (DCM.port info);
                  status := "starting";
                  bot_logs :=
                    Some ("Bot started on port " ++ str (DCM.port info)) |}
           ]
    /\ resp
       = {| r_message := "Meeting bot started successfully";
            r_meeting_id := uuid4;
            r_container_id := Some (DCM.container_id info);
            r_port := Some (DCM.port info);
            r_status := Some "starting" |}.
Proof.
  unfold start_meeting_bot.
  destruct (get_docker_manager from_env (docker_manager a))
    as [[m|[c dt]] g]; [|discriminate].
  pose proof (Manager.start_meeting_bot_cases connect_ex rnd uuid4 time_name
                time_started d meeting_url current_user duration m) as H.
  destruct (DCM.start_meeting_bot connect_ex rnd uuid4 time_name time_started
              d meeting_url current_user duration m) as [[info|e] m'];
    [|discriminate].
  intros [= <- <-]. simpl in H.
  destruct H as [(e & He & _) | (p & cid & Hin & _ & Hinfo & Hu & Hm)];
    [discriminate|].
  injection Hinfo as Hinfo.
  apply PortAllocator.available_ports_spec in Hin as (Hr & _ & _).
  assert (Hcid : DCM.container_id info = cid) by (by rewrite Hinfo).
  assert (Hp : DCM.port info = p) by (by rewrite Hinfo).
  exists m', info. simpl. split; [reflexivity|].
  split; [rewrite Hm, Hcid, <- Hinfo; apply lookup_insert_eq|].
  split; [rewrite Hu, Hp; apply elem_of_union; left;
          by apply elem_of_singleton|].
  split; [by rewrite Hp|].
  split; [by rewrite Hinfo|]. split; [by rewrite Hinfo|].
  split; [by rewrite Hinfo | by rewrite Hinfo].
Qed.

Lemma start_route_success_witness :
  exists m' info,
    docker_manager Examples.app_started = Some m'
    /\ DCM.container_map m' !! DCM.container_id info = Some info
    /\ DCM.port info ∈ DCM.used_ports m'.
Proof.
  destruct (start_route_success true Examples.quiet_host 0 "uuid-1"
              1700000000 1700000000 (Examples.engine_reporting "running")
              "https://meet.google.com/abc-def-ghi" 30 "user1"
              Examples.app0 Examples.app_started
              {| r_message := "Meeting bot started successfully";
                 r_meeting_id := "uuid-1";
                 r_container_id := Some "c1";
                 r_port := Some 3001;
                 r_status := Some "starting" |})
    as (m' & info & H1 & H2 & H3 & _).
  - vm_compute. reflexivity.
  - exists m', info. auto.
Defined.

Lemma length_update_first P f rows :
  length (update_first P f rows) = length rows.
Proof.
  induction rows as [|r rows IH]; [done|]. simpl.
  destruct (P r); simpl; congruence.
Qed.

(** X12.  A stop request that succeeds has found a row of the caller with
    a container id that the manager tracked and the engine knew; the manager
    has released the port of that worker and tracks it no longer, and the
    table has as many rows as before. *)
Theorem stop_route_success (from_env : bool) (d : DCM.docker)
    (meeting_id current_user msg : string) (a a1 : app) :
  stop_meeting from_env d meeting_id current_user a = (Return msg, a1) ->
  exists meeting cid m info m',
    first (owned meeting_id current_user) (db a) = Some meeting
    /\ user_id meeting = current_user
    /\ container_id meeting = Some cid
    /\ fst (get_docker_manager from_env (docker_manager a)) = Ok m
    /\ DCM.container_map m !! cid = Some info
    /\ is_Some (DCM.containers_get d cid)
    /\ docker_manager a1 = Some m'
    /\ DCM.used_ports m' = DCM.used_ports m ∖ {[DCM.port info]}
    /\ DCM.container_map m' = delete cid (DCM.container_map m)
    /\ length (db a1) = length (db a)
    /\ msg = "Meeting stopped successfully".
Proof.
  unfold stop_meeting.
  destruct (first (owned meeting_id current_user) (db a)) as [meeting|] eqn:Hf;
    [|discriminate].
  destruct (container_id meeting) as [cid|] eqn:Hcid; [|discriminate].
  destruct (truthy (Some cid)); [|discriminate].
  destruct (get_docker_manager from_env (docker_manager a))
    as [[m|[c dt]] g]; [|discriminate].
  unfold DCM.stop_meeting_bot.
  destruct (DCM.container_map m !! cid) as [info|] eqn:Hc; [|discriminate].
  destruct (DCM.containers_get d cid) as [st|] eqn:Hg; [|discriminate].
  destruct (DCM.container_stop d cid); [|discriminate].
  intros [= <- <-].
  apply Handlers.first_Some_owned in Hf as Ho. destruct Ho as [Ho _].
  apply Tenancy.owned_user in Ho as [_ Hu].
  exists meeting, cid, m, info. eexists. simpl.
  repeat split; try done; try (by eexists); apply length_update_first.
Qed.

Lemma stop_route_success_witness :
  exists m', docker_manager Examples.app_stopped = Some m'
             /\ length (db Examples.app_stopped) = 1%nat.
Proof.
  destruct (stop_route_success true (Examples.engine_reporting "running")
              "uuid-1" "user1" "Meeting stopped successfully"
              Examples.app_started Examples.app_stopped)
    as (meeting & cid & m & info & m' & _ & _ & _ & _ & _ & _ & Hm & _ & _
        & Hlen & _).
  - vm_compute. reflexivity.
  - exists m'. split; [exact Hm|]. rewrite Hlen. reflexivity.
Defined.

(** The listing fails only when the manager cannot be had, and then
    nothing has been written. *)
Lemma refresh_rows_error from_env d current_user rows :
  forall g e rows' g',
    refresh_rows from_env d current_user rows g = (Some e, rows', g') ->
    g = None /\ from_env = false /\ rows' = rows /\ g' = None
    /\ e = (503, "Docker is not available in backend container").
Proof.
  induction rows as [|meeting rest IH]; intros g e rows' g'; [done|].
  cbn [refresh_rows].
  assert (Hskip : forall g0,
    (let '(e0, rest', g1) :=
       refresh_rows from_env d current_user rest g0 in
     (e0, meeting :: rest', g1)) = (Some e, rows', g') ->
    g0 = None /\ from_env = false /\ rows' = meeting :: rest /\ g' = None
    /\ e = (503, "Docker is not available in backend container")).
  { intros g0. specialize (IH g0).
    destruct (refresh_rows from_env d current_user rest g0)
      as [[e0 rest'] g1].
    intros [= -> <- <-]. destruct (IH _ _ _ eq_refl) as (?&?&->&?&?). auto. }
  assert (Hnot : forall (m' : DCM.manager) (meeting' : User_google_meeting_data),
    (let '(e0, rest', g1) :=
       refresh_rows from_env d current_user rest (Some m') in
     (e0, meeting' :: rest', g1)) <> (Some e, rows', g')).
  { intros m' meeting'. specialize (IH (Some m')).
    destruct (refresh_rows from_env d current_user rest (Some m'))
      as [[e0 rest'] g1].
    intros [= -> <- <-]. by destruct (IH _ _ _ eq_refl) as (?&_). }
  destruct (negb (String.eqb (user_id meeting) current_user)); [apply Hskip|].
  destruct (negb (truthy (container_id meeting))); [apply Hskip|].
  destruct (container_id meeting) as [cid|]; [|apply Hskip].
  destruct (get_docker_manager_cases from_env g)
    as [(m & -> & _) | (-> & -> & ->)].
  - destruct (DCM.get_meeting_bot_status d cid m) as [[info|] m'];
      intros H; by apply Hnot in H.
  - by intros [= <- <- <-].
Qed.

(** The listing changes the owner of no row. *)
Lemma refresh_rows_users from_env d current_user rows :
  forall g,
    map user_id (snd (fst (refresh_rows from_env d current_user rows g)))
    = map user_id rows.
Proof.
  induction rows as [|meeting rest IH]; intros g; [done|].
  cbn [refresh_rows].
  assert (Hrec : forall g0 (meeting' : User_google_meeting_data),
    user_id meeting' = user_id meeting ->
    map user_id
      (snd (fst (let '(e, rest', g') :=
                   refresh_rows from_env d current_user rest g0 in
                 (e, meeting' :: rest', g'))))
    = map user_id (meeting :: rest)).
  { intros g0 meeting' Hu. specialize (IH g0).
    destruct (refresh_rows from_env d current_user rest g0) as [[e rest'] g'].
    simpl in *. by rewrite Hu, IH. }
  destruct (negb (String.eqb (user_id meeting) current_user));
    [by apply Hrec|].
  destruct (negb (truthy (container_id meeting))); [by apply Hrec|].
  destruct (container_id meeting) as [cid|]; [|by apply Hrec].
  destruct (get_docker_manager from_env g) as [[m|e] g1]; [|done].
  destruct (DCM.get_meeting_bot_status d cid m) as [[info|] m'];
    by apply Hrec.
Qed.

Lemma rows_of_length_users current_user rows rows' :
  map user_id rows' = map user_id rows ->
  length (rows_of current_user rows') = length (rows_of current_user rows).
Proof.
  unfold rows_of. revert rows.
  induction rows' as [|r' rows' IH]; intros [|r rows] H; try done.
  simpl in H. injection H as Hu Hrest. simpl. rewrite Hu.
  destruct (String.eqb (user_id r) current_user); simpl;
    by rewrite (IH rows Hrest).
Qed.

(** X13.  The listing returns rows of the caller only, as many as the
    caller has in the table, and the table keeps its length.  It fails
    only when the manager is needed and cannot be created, with status 500,
    and then it has changed nothing. *)
Theorem get_user_meetings_result (from_env : bool) (d : DCM.docker)
    (current_user : string) (a : app) :
  let r := get_user_meetings from_env d current_user a in
  length (db (snd r)) = length (db a)
  /\ match fst r with
     | Return rows =>
         Forall (fun row => user_id row = current_user) rows
         /\ rows = rows_of current_user (db (snd r))
         /\ length rows = length (rows_of current_user (db a))
     | HTTPException status_code detail =>
         status_code = 500
         /\ snd r = a
         /\ docker_manager a = None
         /\ from_env = false
     end.
Proof.
  unfold get_user_meetings.
  pose proof (refresh_rows_users from_env d current_user (db a)
                (docker_manager a)) as Hu.
  pose proof (refresh_rows_error from_env d current_user (db a)
                (docker_manager a)) as He.
  destruct (refresh_rows from_env d current_user (db a) (docker_manager a))
    as [[e rows] g]. simpl in Hu.
  assert (Hlen : length rows = length (db a)).
  { rewrite <- (length_map user_id rows), Hu. apply length_map. }
  destruct e as [[c dt]|]; simpl.
  - destruct (He _ _ _ eq_refl) as (Hg & Hfe & -> & -> & _).
    split; [done|]. repeat split; try done.
    destruct a as [g0 rows0]. simpl in *. by rewrite Hg.
  - split; [done|]. split; [|split; [done|]].
    + apply Forall_forall. intros row Hrow.
      apply list_elem_of_In, filter_In in Hrow as [_ Hrow].
      by apply String.eqb_eq.
    + by apply rows_of_length_users.
Qed.

(** X14.  A pause or resume request for an id that no row of the caller
    carries fails with status 404, and one for a row of the caller without
    container id fails with status 400; in both cases the rows and the
    manager are left as they were, and answer and state are these whatever
    the control endpoint of a worker would reply. *)
Theorem control_call_refused (post : string -> post_result)
    (meeting_id current_user : string) (a : app) :
  ((forall row, row ∈ db a -> id row = meeting_id ->
                user_id row <> current_user) ->
   pause_meeting post meeting_id current_user a
   = (HTTPException 404 "Meeting not found", a)
   /\ resume_meeting post meeting_id current_user a
      = (HTTPException 404 "Meeting not found", a))
  /\ (forall meeting,
        first (owned meeting_id current_user) (db a) = Some meeting ->
        truthy (container_id meeting) = false ->
        pause_meeting post meeting_id current_user a
        = (HTTPException 400 "Meeting bot not running", a)
        /\ resume_meeting post meeting_id current_user a
           = (HTTPException 400 "Meeting bot not running", a)).
Proof.
  unfold pause_meeting, resume_meeting. split.
  - intros H. by rewrite (Handlers.first_None_not_owned _ _ _ H).
  - intros meeting Hf Ht. by rewrite Hf, Ht.
Qed.

Lemma refresh_rows_without_docker d current_user rows :
  snd (fst (refresh_rows false d current_user rows None)) = rows
  /\ snd (refresh_rows false d current_user rows None) = None.
Proof.
  induction rows as [|meeting rest [IH1 IH2]]; [done|].
  cbn [refresh_rows].
  destruct (refresh_rows false d current_user rest None) as [[e rest'] g'].
  simpl in IH1, IH2. subst.
  destruct (negb (String.eqb (user_id meeting) current_user)); [done|].
  destruct (negb (truthy (container_id meeting))); [done|].
  by destruct (container_id meeting).
Qed.

Lemma without_docker_step rows o :
  without_docker o = true ->
  route_step {| docker_manager := None; db := rows |} o
  = {| docker_manager := None; db := rows |}.
Proof.
  destruct o as [from_env connect_ex rnd uuid4 t1 t2 d url duration user
                | from_env d user | post mid user | post mid user
                | from_env d mid user | from_env d | from_env d]; simpl;
    try discriminate; intros ->%negb_true_iff.
  - reflexivity.
  - unfold get_user_meetings. simpl.
    destruct (refresh_rows_without_docker d user rows) as [H1 H2].
    destruct (refresh_rows false d user rows None) as [[e rows'] g].
    simpl in *. subst. by destruct e as [[c dt]|].
  - unfold stop_meeting. cbn [db docker_manager].
    destruct (first (owned mid user) rows) as [meeting|]; [|done].
    destruct (container_id meeting) as [cid|]; [|done].
    by destruct (truthy (Some cid)).
  - reflexivity.
  - reflexivity.
Qed.

(** X15.  While no manager exists and none can be created (the engine
    client cannot be initialised), launch, listing, stop, status and cleanup
    requests write nothing: after any run of them the table is as it was and
    there is still no manager. *)
Theorem without_docker_nothing_changes (ops : list route_op)
    (rows : list User_google_meeting_data) :
  Forall (fun o => without_docker o = true) ops ->
  route_run ops {| docker_manager := None; db := rows |}
  = {| docker_manager := None; db := rows |}.
Proof.
  unfold route_run. induction ops as [|o ops IH]; intros H; [done|].
  apply Forall_cons in H as [Ho Hops]. simpl.
  rewrite without_docker_step by done. by apply IH.
Qed.

Lemma without_docker_nothing_changes_witness :
  route_run Examples.requests_without_docker Examples.app_restarted
  = Examples.app_restarted.
Proof.
  apply (without_docker_nothing_changes Examples.requests_without_docker
           [Examples.started_row]).
  unfold Examples.requests_without_docker.
  repeat (apply Forall_cons; split; [reflexivity|]).
  apply Forall_nil_2.
Defined.

Lemma refresh_rows_inv from_env d current_user rows :
  forall g,
    app_inv {| docker_manager := g; db := [] |} ->
    app_inv {| docker_manager :=
                 snd (refresh_rows from_env d current_user rows g);
               db := [] |}.
Proof.
  unfold app_inv. simpl.
  induction rows as [|meeting rest IH]; intros g Hg; [done|].
  cbn [refresh_rows].
  assert (Hskip : forall g0,
    match g0 with Some m => manager_inv m | None => True end ->
    match snd (let '(e, rest', g') :=
                 refresh_rows from_env d current_user rest g0 in
               (e, meeting :: rest', g'))
    with Some m => manager_inv m | None => True end).
  { intros g0 Hg0. specialize (IH g0 Hg0).
    by destruct (refresh_rows from_env d current_user rest g0)
      as [[e rest'] g']. }
  assert (Hrec : forall m' (meeting' : User_google_meeting_data),
    manager_inv m' ->
    match snd (let '(e, rest', g') :=
                 refresh_rows from_env d current_user rest (Some m') in
               (e, meeting' :: rest', g'))
    with Some m => manager_inv m | None => True end).
  { intros m' meeting' Hm'. specialize (IH (Some m') Hm').
    by destruct (refresh_rows from_env d current_user rest (Some m'))
      as [[e rest'] g']. }
  destruct (negb (String.eqb (user_id meeting) current_user));
    [by apply Hskip|].
  destruct (negb (truthy (container_id meeting))); [by apply Hskip|].
  destruct (container_id meeting) as [cid|]; [|by apply Hskip].
  destruct (get_docker_manager_cases from_env g)
    as [(m & -> & Hm) | (-> & _)]; [|done].
  assert (Hinv : manager_inv m).
  { destruct Hm as [-> | (_ & _ & ->)];
      [done | apply Invariant.manager_inv_init]. }
  pose proof (Invariant.bot_step_inv m (Check d cid) Hinv) as Hstep.
  simpl in Hstep.
  destruct (DCM.get_meeting_bot_status d cid m) as [[info|] m'];
    by apply Hrec.
Qed.

Lemma app_inv_step a o : app_inv a -> app_inv (route_step a o).
Proof.
  unfold app_inv. intros Ha.
  assert (Hget : forall from_env m g,
            get_docker_manager from_env (docker_manager a) = (Ok m, g) ->
            manager_inv m).
  { intros from_env m g E.
    destruct (get_docker_manager_cases from_env (docker_manager a))
      as [(m0 & E0 & Hm) | (E0 & _)]; [|congruence].
    rewrite E0 in E. injection E as <- _.
    destruct Hm as [Hm | (_ & _ & ->)];
      [by rewrite Hm in Ha | apply Invariant.manager_inv_init]. }
  assert (Hraise : forall from_env e g,
            get_docker_manager from_env (docker_manager a) = (Raise e, g) ->
            g = None).
  { intros from_env e g E.
    destruct (get_docker_manager_cases from_env (docker_manager a))
      as [(m0 & E0 & _) | (E0 & _)]; congruence. }
  destruct o as [from_env connect_ex rnd uuid4 t1 t2 d url duration user
                | from_env d user | post mid user | post mid user
                | from_env d mid user | from_env d | from_env d]; simpl.
  - unfold start_meeting_bot.
    destruct (get_docker_manager from_env (docker_manager a))
      as [[m|[c dt]] g] eqn:E; simpl.
    + pose proof (Invariant.bot_step_inv m
                    (Launch connect_ex rnd uuid4 t1 t2 d url user duration)
                    (Hget _ _ _ E)) as Hstep. simpl in Hstep.
      by destruct (DCM.start_meeting_bot _ _ _ _ _ _ _ _ _ _)
        as [[info|e] m'].
    + by rewrite (Hraise _ _ _ E).
  - unfold get_user_meetings.
    pose proof (refresh_rows_inv from_env d user (db a) (docker_manager a) Ha)
      as H. unfold app_inv in H. simpl in H.
    destruct (refresh_rows from_env d user (db a) (docker_manager a))
      as [[e rows] g]. simpl in H. by destruct e as [[c dt]|].
  - unfold pause_meeting.
    destruct (first (owned mid user) (db a)) as [meeting|]; [|done].
    destruct (truthy (container_id meeting)); [|done].
    destruct (post _) as [code|]; [|done].
    by destruct (Z.eqb code 200).
  - unfold resume_meeting.
    destruct (first (owned mid user) (db a)) as [meeting|]; [|done].
    destruct (truthy (container_id meeting)); [|done].
    destruct (post _) as [code|]; [|done].
    by destruct (Z.eqb code 200).
  - unfold stop_meeting.
    destruct (first (owned mid user) (db a)) as [meeting|]; [|done].
    destruct (container_id meeting) as [cid|]; [|done].
    destruct (truthy (Some cid)); [|done].
    destruct (get_docker_manager from_env (docker_manager a))
      as [[m|[c dt]] g] eqn:E; simpl.
    + pose proof (Invariant.bot_step_inv m (Stop d cid) (Hget _ _ _ E))
        as Hstep. simpl in Hstep.
      by destruct (DCM.stop_meeting_bot d cid m) as [[|] m'].
    + by rewrite (Hraise _ _ _ E).
  - unfold get_meeting_bots_status.
    destruct (get_docker_manager from_env (docker_manager a))
      as [[m|[c dt]] g] eqn:E; simpl.
    + pose proof (Invariant.bot_step_inv m (ListAll d) (Hget _ _ _ E))
        as Hstep. simpl in Hstep.
      by destruct (DCM.get_all_meeting_bots d m).
    + by rewrite (Hraise _ _ _ E).
  - unfold cleanup_meeting_bots.
    destruct (get_docker_manager from_env (docker_manager a))
      as [[m|[c dt]] g] eqn:E; simpl.
    + pose proof (Invariant.bot_step_inv m (Cleanup d) (Hget _ _ _ E))
        as Hstep. simpl in Hstep.
      by destruct (DCM.cleanup_dead_containers d m).
    + by rewrite (Hraise _ _ _ E).
Qed.

(** X16.  Whatever requests the service has served since it came up, the
    manager behind the handlers, once it exists, has only ports of the range
    claimed, has every tracked worker filed under its container id with its
    port claimed, and has no two tracked workers on one port. *)
Theorem handlers_keep_manager_inv (ops : list route_op) :
  app_inv (route_run ops Examples.app0).
Proof.
  assert (H : forall a, app_inv a -> app_inv (route_run ops a)).
  { unfold route_run. induction ops as [|o ops IH]; intros a Ha; [done|].
    simpl. by apply IH, app_inv_step. }
  apply H. exact I.
Qed.

End Service.

(** ** The handlers of the cluster variant *)

Module JobHandlers.

Import Jobs JobRoutes Claims.

Lemma has_colon_nonempty s : has_colon s = true -> truthy (Some s) = true.
Proof. by destruct s. Qed.

Lemma bot_image_error_500 (getenv : string -> option string)
    (status_code : Z) (detail : string) :
  _bot_image_from_env getenv = Routes.HTTPException status_code detail ->
  status_code = 500 /\ detail = image_not_configured.
Proof.
  unfold _bot_image_from_env, or_else.
  destruct (if truthy (getenv "BOT_IMAGE") then getenv "BOT_IMAGE"
            else getenv "DOCKER_IMAGE_NAME") as [s|] eqn:E.
  - destruct (negb (truthy (Some s)) || negb (has_colon s)); [|done].
    by intros [= <- <-].
  - by intros [= <- <-].
Qed.

(** X17.  [_bot_image_from_env] returns an image exactly when the variable
    it settles on holds a name with a colon: [BOT_IMAGE] when that is set
    and not empty, and [DOCKER_IMAGE_NAME] only when it is not.  A
    [BOT_IMAGE] without colon is therefore an error even when
    [DOCKER_IMAGE_NAME] would do; every error has status 500. *)
Theorem bot_image_from_env_spec (getenv : string -> option string) :
  (forall img,
     _bot_image_from_env getenv = Routes.Return img <->
     has_colon img = true
     /\ (getenv "BOT_IMAGE" = Some img
         \/ (truthy (getenv "BOT_IMAGE") = false
             /\ getenv "DOCKER_IMAGE_NAME" = Some img)))
  /\ (forall status_code detail,
        _bot_image_from_env getenv = Routes.HTTPException status_code detail ->
        status_code = 500 /\ detail = image_not_configured).
Proof.
  unfold _bot_image_from_env, or_else. split.
  - intros img. split.
    + destruct (truthy (getenv "BOT_IMAGE")) eqn:Hb.
      * destruct (getenv "BOT_IMAGE") as [b|]; [|done]. rewrite Hb. simpl.
        destruct (has_colon b) eqn:Hc; [|done]. intros [= <-]. auto.
      * destruct (getenv "DOCKER_IMAGE_NAME") as [n|] eqn:Hn; [|done].
        destruct (truthy (Some n)); [|done]. simpl.
        destruct (has_colon n) eqn:Hc; [|done]. intros [= <-]. auto.
    + intros [Hc [Hb | [Hb Hn]]].
      * rewrite Hb, (has_colon_nonempty _ Hc),
          (has_colon_nonempty _ Hc), Hc. done.
      * rewrite Hb, Hn, (has_colon_nonempty _ Hc), Hc. done.
  - intros code detail. apply bot_image_error_500.
Qed.

(** X18.  [start_meeting_job] reports a failure of the cluster
    configuration before it looks at the image, and a missing image before
    it contacts the cluster; it succeeds exactly when the cluster accepts
    the job built from the request, and then returns the name the cluster
    gave and the uuid of the job, which is the caller's when one was sent.
    Every failure has status 500. *)
Theorem start_meeting_job_outcome (w : k8s_setup)
    (getenv : string -> option string) (uuid4 : string)
    (create : string -> V1Job.t -> result string string)
    (payload : K8sMeetingRequest) :
  let r := start_meeting_job w getenv uuid4 create payload in
  (forall e, _load_k8s_config w = Some e ->
             r = Routes.HTTPException (fst e) (snd e))
  /\ (forall status_code detail,
        _load_k8s_config w = None ->
        _bot_image_from_env getenv
          = Routes.HTTPException status_code detail ->
        r = Routes.HTTPException status_code detail)
  /\ (forall created,
        r = Routes.Return created <->
        _load_k8s_config w = None
        /\ jc_message created = "job created"
        /\ jc_uuid created = uuid_or_fresh (uuid payload) uuid4
        /\ exists image,
             _bot_image_from_env getenv = Routes.Return image
             /\ create (DEFAULT_NAMESPACE getenv)
                  (_build_job_spec (meetingId payload) (jc_uuid created)
                     (duration_or_1 (duration payload))
                     (record_type_or_video (recordType payload)) image)
                = Ok (jc_job created))
  /\ (forall status_code detail,
        r = Routes.HTTPException status_code detail -> status_code = 500)
  /\ (forall u, uuid payload = Some u -> u <> EmptyString ->
                uuid_or_fresh (uuid payload) uuid4 = u).
Proof.
  intros r. subst r. unfold start_meeting_job.
  split; [|split; [|split; [|split]]].
  - intros [c dt] ->. done.
  - intros c dt -> ->. done.
  - intros [msg job u]. simpl. split.
    + destruct (_load_k8s_config w) as [[c dt]|]; [done|].
      destruct (_bot_image_from_env getenv) as [image|c dt]; [|done].
      destruct (create _ _) as [job_name|e] eqn:Ec; [|done].
      intros [= <- <- <-]. repeat split; try done.
      exists image. by split.
    + intros (-> & -> & -> & image & -> & ->). done.
  - intros c dt.
    unfold _load_k8s_config.
    destruct (negb (client_imported w)); [by intros [= <- _]|].
    destruct (load_incluster_config w).
    + destruct (_bot_image_from_env getenv) as [image|c0 dt0] eqn:Ei.
      * destruct (create _ _); [done | by intros [= <- _]].
      * intros [= <- <-].
        by destruct (bot_image_error_500 getenv _ _ Ei).
    + destruct (load_kube_config w) as [[]|e]; [|by intros [= <- _]].
      destruct (_bot_image_from_env getenv) as [image|c0 dt0] eqn:Ei.
      * destruct (create _ _); [done | by intros [= <- _]].
      * intros [= <- <-].
        by destruct (bot_image_error_500 getenv _ _ Ei).
  - intros u -> Hu. unfold uuid_or_fresh, truthy.
    destruct (String.eqb u EmptyString) eqn:E; [|done].
    by apply String.eqb_eq in E.
Qed.

Lemma create_jobs_spec create build uuids created :
  create_jobs create build uuids created
  = (created ++ omap (accepted create build) uuids)%list.
Proof.
  revert created. induction uuids as [|u uuids IH]; intros created; csimpl.
  - by rewrite app_nil_r.
  - unfold accepted at 1. destruct (create (build u)) as [n|e].
    + by rewrite IH, <- app_assoc.
    + by rewrite IH.
Qed.

Lemma length_omap_le {A B} (f : A -> option B) (l : list A) :
  (length (omap f l) <= length l)%nat.
Proof.
  induction l as [|x l IH]; csimpl; [done|].
  destruct (f x); simpl; lia.
Qed.

Lemma length_omap_all {A B} (f : A -> option B) (l : list A) :
  (forall x, is_Some (f x)) -> length (omap f l) = length l.
Proof.
  intros Hf. induction l as [|x l IH]; csimpl; [done|].
  destruct (Hf x) as [y ->]. simpl. by rewrite IH.
Qed.

(** X19.  [start_batch_jobs] tries one job per turn, [count] turns, each
    with a fresh uuid and the same meeting; a job the cluster refuses does
    not stop the batch.  The answer lists the accepted jobs in the order of
    the turns, and its count is their number: never more than [count] (at
    most 100 for a valid request), and [count] itself when the cluster
    accepts every job.  The request fails, with status 500, only before the
    first turn. *)
Theorem start_batch_jobs_count (w : k8s_setup)
    (getenv : string -> option string) (uuid4 : nat -> string)
    (create : string -> V1Job.t -> result string string)
    (payload : BatchRequest) :
  match start_batch_jobs w getenv uuid4 create payload with
  | Routes.Return r =>
      exists image,
        _bot_image_from_env getenv = Routes.Return image
        /\ bc_jobs r
           = omap (accepted (create (DEFAULT_NAMESPACE getenv))
                     (fun uuid_val =>
                        _build_job_spec (baseMeetingId payload) uuid_val
                          (duration_or_1 (b_duration payload))
                          (record_type_or_video (b_recordType payload))
                          image))
                  (map uuid4 (seq 0 (Z.to_nat (count payload))))
        /\ bc_count r = Z.of_nat (length (bc_jobs r))
        /\ 0 <= bc_count r <= Z.max 0 (count payload)
        /\ (valid_count payload -> bc_count r <= 100)
        /\ ((forall ns job, exists job_name, create ns job = Ok job_name) ->
            bc_count r = Z.max 0 (count payload))
  | Routes.HTTPException status_code detail =>
      status_code = 500
      /\ (_load_k8s_config w <> None
          \/ _bot_image_from_env getenv
             = Routes.HTTPException status_code detail)
  end.
Proof.
  unfold start_batch_jobs.
  destruct (_load_k8s_config w) as [[c dt]|] eqn:El.
  - split; [|by left]. revert El. unfold _load_k8s_config.
    destruct (negb (client_imported w)); [by intros [= <- _]|].
    destruct (load_incluster_config w); [done|].
    destruct (load_kube_config w) as [[]|e]; [done | by intros [= <- _]].
  - destruct (_bot_image_from_env getenv) as [image|c dt] eqn:Ei.
    + exists image. split; [done|]. cbn [bc_jobs bc_count].
      rewrite create_jobs_spec, app_nil_l.
      set (build := fun uuid_val : string => _build_job_spec _ _ _ _ _).
      set (uuids := map uuid4 (seq 0 (Z.to_nat (count payload)))).
      assert (Hlen : length uuids = Z.to_nat (count payload))
        by (unfold uuids; by rewrite length_map, length_seq).
      pose proof (length_omap_le
                    (accepted (create (DEFAULT_NAMESPACE getenv)) build)
                    uuids) as Hle.
      split; [done|]. split; [done|]. split; [lia|].
      split; [unfold valid_count; lia|].
      intros Hall. rewrite length_omap_all; [lia|].
      intros u. unfold accepted.
      destruct (Hall (DEFAULT_NAMESPACE getenv) (build u)) as [n ->].
      by eexists.
    + destruct (bot_image_error_500 getenv _ _ Ei) as [-> _].
      split; [done | by right].
Qed.

Lemma append_inj_l (s a b : string) : s ++ a = s ++ b -> a = b.
Proof. induction s as [|c s IH]; simpl; [done|]. intros [= H]. auto. Qed.

Lemma length_prefix n s : (String.length (prefix n s) <= n)%nat.
Proof.
  unfold prefix. revert s.
  induction n as [|n IH]; intros [|c s]; simpl; try lia.
  specialize (IH s). lia.
Qed.

Lemma length_append (a b : string) :
  String.length (a ++ b) = (String.length a + String.length b)%nat.
Proof. induction a as [|c a IH]; simpl; [done | by rewrite IH]. Qed.

(** X20.  The names of a job and of its pod depend on the first eight
    characters of the uuid and on nothing else of the request: two requests
    get the same job name exactly when their uuids agree on these eight
    characters, whatever their meetings, durations and images.  The job name
    has at most 16 characters and the pod name at most 12. *)
Theorem job_name_by_uuid_prefix (meeting1 uuid1 : string) (duration1 : Z)
    (record1 image1 meeting2 uuid2 : string) (duration2 : Z)
    (record2 image2 : string) :
  let job1 := _build_job_spec meeting1 uuid1 duration1 record1 image1 in
  let job2 := _build_job_spec meeting2 uuid2 duration2 record2 image2 in
  let job_name job := V1ObjectMeta.name (V1Job.metadata job) in
  let pod_name job :=
    V1ObjectMeta.name
      (V1PodTemplateSpec.metadata (V1JobSpec.template (V1Job.spec job))) in
  (job_name job1 = job_name job2 <-> prefix 8 uuid1 = prefix 8 uuid2)
  /\ (pod_name job1 = pod_name job2 <-> prefix 8 uuid1 = prefix 8 uuid2)
  /\ job_name job1 = "bot-job-" ++ prefix 8 uuid1
  /\ pod_name job1 = "bot-" ++ prefix 8 uuid1
  /\ (String.length (job_name job1) <= 16)%nat
  /\ (String.length (pod_name job1) <= 12)%nat.
Proof.
  cbv zeta. cbn [_build_job_spec V1Job.metadata V1ObjectMeta.name V1Job.spec
                 V1JobSpec.template V1PodTemplateSpec.metadata].
  pose proof (length_prefix 8 uuid1) as Hlen.
  split; [|split; [|split; [|split; [|split]]]]; try reflexivity.
  - split; [apply append_inj_l | by intros ->].
  - split; [apply append_inj_l | by intros ->].
  - rewrite length_append. simpl. lia.
  - rewrite length_append. simpl. lia.
Qed.

(** X21.  The pod of every job is consistent with itself: each volume a
    container mounts is a volume the pod declares, each probe of a container
    asks a port that this container exposes, the two containers have
    different names, and the job is never retried (restart policy [Never],
    backoff limit 0). *)
Theorem pod_template_consistent (meeting_id uuid_val : string)
    (duration_min : Z) (record_type image : string) :
  let job :=
    _build_job_spec meeting_id uuid_val duration_min record_type image in
  let pod := V1PodTemplateSpec.spec (V1JobSpec.template (V1Job.spec job)) in
  (forall c mount,
     In c (V1PodSpec.containers pod) ->
     In mount (V1Container.volume_mounts c) ->
     exists v, In v (V1PodSpec.volumes pod)
               /\ V1Volume.name v = V1VolumeMount.name mount)
  /\ (forall c probe,
        In c (V1PodSpec.containers pod) ->
        V1Container.startup_probe c = Some probe
        \/ V1Container.readiness_probe c = Some probe ->
        exists cp, In cp (V1Container.ports c)
                   /\ V1ContainerPort.container_port cp
                      = V1HTTPGetAction.port (V1Probe.http_get probe))
  /\ NoDup (map V1Container.name (V1PodSpec.containers pod))
  /\ V1PodSpec.restart_policy pod = "Never"
  /\ V1JobSpec.backoff_limit (V1Job.spec job) = 0.
Proof.
  cbv zeta. simpl. split; [|split; [|split; [|done]]].
  - intros c mount [<- | [<- | []]]; simpl.
    + intros [<- | [<- | []]]; simpl;
        first [ eexists; split; [by left | done]
              | eexists; split; [right; by left | done] ].
    + intros [<- | []]. simpl. eexists; split; [by left | done].
  - intros c probe [<- | [<- | []]]; simpl.
    + intros [?|?]; discriminate.
    + intros [[= <-] | [= <-]]; simpl; (eexists; split; [by left | done]).
  - apply NoDup_cons. split.
    + intros [H | []]%list_elem_of_In. discriminate.
    + apply NoDup_singleton.
Qed.

Example batch_with_one_refusal :
  start_batch_jobs Examples.in_cluster Examples.image_env
    Examples.counting_uuid Examples.picky_scheduler Examples.batch_of_4
  = Routes.Return
      {| bc_message := "batch created";
         bc_count := 3;
         bc_jobs := ["bot-job-0"; "bot-job-1"; "bot-job-3"] |}.
Proof. vm_compute. reflexivity. Qed.

Example job_without_image :
  start_meeting_job Examples.in_cluster (fun _ => None) "fresh"
    Examples.picky_scheduler
    {| meetingId := "abc-def-ghi"; duration := 0; uuid := None;
       recordType := None |}
  = Routes.HTTPException 500 image_not_configured.
Proof. reflexivity. Qed.

Example job_with_override :
  start_meeting_job Examples.in_cluster Examples.image_env "fresh"
    Examples.picky_scheduler
    {| meetingId := "abc-def-ghi"; duration := 0;
       uuid := Some "0f8fad5b-d9cb-469f-a165-70867728950e";
       recordType := Some EmptyString |}
  = Routes.Return
      {| jc_message := "job created";
         jc_job := "bot-job-0f8fad5b";
         jc_uuid := "0f8fad5b-d9cb-469f-a165-70867728950e" |}.
Proof. vm_compute. reflexivity. Qed.

End JobHandlers.

(** ** How the operations of the manager compose *)

Module Composition.

Import DockerContainerManager Traces Lifecycle.

(** X22.  Ports are claimed by a launch only and released by a stop or a
    cleanup only: a launch never releases a port, a stop and a cleanup never
    claim one, and a status check or a listing leaves the claimed ports
    exactly as they are.  None but a launch adds a worker to the tracking
    map. *)
Theorem ports_change_only_by (m : manager) (o : bot_op) :
  match o with
  | Launch _ _ _ _ _ _ _ _ _ =>
      used_ports m ⊆ used_ports (bot_step m o)
  | Stop _ _ | Cleanup _ =>
      used_ports (bot_step m o) ⊆ used_ports m
      /\ forall cid, container_map m !! cid = None ->
                     container_map (bot_step m o) !! cid = None
  | Check _ _ | ListAll _ =>
      used_ports (bot_step m o) = used_ports m
      /\ forall cid, container_map m !! cid = None ->
                     container_map (bot_step m o) !! cid = None
  end.
Proof.
  destruct o as [connect_ex rnd uuid4 t1 t2 d url user duration
                | d cid | d cid | d | d]; simpl.
  - pose proof (Manager.start_meeting_bot_cases connect_ex rnd uuid4 t1 t2 d
                  url user duration m) as H. simpl in H.
    destruct H as [(e & _ & -> & _) | (p & cid & _ & _ & _ & -> & _)];
      [done|].
    intros q Hq. apply elem_of_union. by right.
  - destruct (Manager.stop_meeting_bot_cases d cid m)
      as [-> | (info & _ & -> & ->)]; [done|].
    split.
    + intros q. by intros [? _]%elem_of_difference.
    + intros c Hc. apply lookup_delete_None. by right.
  - rewrite Reconcile.get_meeting_bot_status_spec.
    destruct (container_map m !! cid ≫= reconciled d cid) as [info'|] eqn:E;
      simpl; [|done].
    split; [done|]. intros c Hc.
    destruct (decide (c = cid)) as [->|Hne].
    + by rewrite Hc in E.
    + by rewrite lookup_insert_ne.
  - destruct (Reconcile.get_all_meeting_bots_spec d m) as [Hu Hm].
    split; [done|]. intros c Hc. by rewrite Hm, Hc.
  - destruct (Cleanup.cleanup_dead_containers_unfold d m) as (used & -> & Hu).
    cbn [snd used_ports container_map]. split.
    + intros q Hq. by apply Hu in Hq as [? _].
    + intros c Hc. rewrite Cleanup.cleanup_remove_lookup.
      by destruct (decide (c ∈ _)).
Qed.

(** X23.  A launch followed by a stop of the launched container that the
    engine carries out gives back the manager there was before the launch,
    provided the container id was not already in use as a key: the port is
    free again and nothing is tracked that was not. *)
Theorem launch_then_stop (connect_ex : Z -> option Z) (rnd : nat)
    (uuid4 : string) (time_name time_started : Z) (d d' : docker)
    (meeting_url user_id : string) (duration : Z) (m m' : manager)
    (info : container_info) :
  start_meeting_bot connect_ex rnd uuid4 time_name time_started d
    meeting_url user_id duration m = (Ok info, m') ->
  container_map m !! container_id info = None ->
  is_Some (containers_get d' (container_id info)) ->
  container_stop d' (container_id info) = true ->
  stop_meeting_bot d' (container_id info) m' = (true, m).
Proof.
  intros E Hfresh [st Hg] Hs.
  pose proof (Manager.start_meeting_bot_cases connect_ex rnd uuid4 time_name
                time_started d meeting_url user_id duration m) as H.
  rewrite E in H. simpl in H.
  destruct H as [(e & He & _) | (p & cid & Hin & _ & Hinfo & Hu & Hm)];
    [discriminate|].
  injection Hinfo as Hinfo.
  assert (Hcid : container_id info = cid) by (by rewrite Hinfo).
  assert (Hp : port info = p) by (by rewrite Hinfo).
  apply PortAllocator.available_ports_spec in Hin as (_ & Hfree & _).
  unfold stop_meeting_bot.
  rewrite Hm, Hcid, lookup_insert_eq, <- Hcid, Hg, Hs. f_equal.
  apply Listing.manager_eq; simpl.
  - rewrite Hu. by apply Launch.discard_fresh.
  - rewrite delete_insert_eq. by apply delete_id.
Qed.

Lemma launch_then_stop_witness :
  stop_meeting_bot (Examples.engine_reporting "exited") "c1"
    Examples.one_worker = (true, init).
Proof.
  apply (launch_then_stop Examples.quiet_host 0 "uuid-1" 1700000000
           1700000000 (Examples.engine_reporting "running")
           (Examples.engine_reporting "exited")
           "https://meet.google.com/abc-def-ghi" "user1" 30 init
           Examples.one_worker Examples.one_worker_info).
  - vm_compute. reflexivity.
  - reflexivity.
  - simpl. by eexists.
  - reflexivity.
Defined.

End Composition.
